(** * blood-test-ai: the upload endpoint and the websocket relay loop of app.py

    A shallow embedding of [src/app.py]: the two file-processing helpers
    ([pdf_to_text], [image_to_base64]), the upload handler ([upload_file]),
    the process-wide [uploaded_data_store] and the body of the loop of
    [websocket_endpoint].

    Conventions.
    - A Python [str] is a [string], one [ascii] for each character; a
      [bytes] object is a [list byte].
    - The dictionary [uploaded_data_store] is a [gmap string string].
    - Handlers run in a small state-and-exception monad [M] over a [world]
      that holds the store, the connection's [chat_history], the frames sent
      on the websocket and the requests made to the completion API.
    - Library calls whose result the program only passes on ([fitz.open],
      [page.get_text], [json.loads], [client.chat.completions.create]) are
      the methods of three interfaces ([PdfLibrary], [JsonLibrary],
      [CompletionApi]); [None] stands for the call raising. *)

From Stdlib Require Import ZArith NArith Lia List String Ascii.
From Stdlib.Strings Require Import Byte.
From Stdlib.Floats Require Import SpecFloat.
From stdpp Require Import gmap strings list fin_maps.

Open Scope string_scope.
Open Scope list_scope.

(* ===================================================================== *)
(** ** Strings *)
(* ===================================================================== *)

(** The line feed of the Python literals ["\n"]. *)
Definition nl : string := String "010"%char "".

(** [s[:n]] for a non-negative [n]. *)
Definition str_take (n : nat) (s : string) : string := substring 0 n s.

(** [s.startswith(p)]. *)
Definition startswith (p s : string) : bool := String.prefix p s.

(** Truth value of a [str]: non-empty. *)
Definition str_truthy (s : string) : bool :=
  match s with EmptyString => false | String _ _ => true end.

(** ["".join(l)]. *)
Definition str_concat (l : list string) : string :=
  fold_right String.append "" l.

(** The cap of [text[:15000]] in [pdf_to_text]. *)
Definition PDF_TEXT_LIMIT : nat := N.to_nat 15000.

(* ===================================================================== *)
(** ** Base64 ([base64.b64encode], and the RFC 4648 decoder) *)
(* ===================================================================== *)

Module Base64.

Definition alphabet : string :=
  "ABCDEFGHIJKLMNOPQRSTUVWXYZabcdefghijklmnopqrstuvwxyz0123456789+/".

Definition pad : ascii := "="%char.

(** The character of a 6-bit value. *)
Definition char_of (n : N) : ascii :=
  match String.get (N.to_nat n) alphabet with
  | Some c => c
  | None => pad
  end.

Fixpoint index_from (i : N) (c : ascii) (s : string) : option N :=
  match s with
  | EmptyString => None
  | String d s' => if Ascii.eqb c d then Some i else index_from (N.succ i) c s'
  end.

(** The 6-bit value of a character of the alphabet. *)
Definition index_of (c : ascii) : option N := index_from 0 c alphabet.

Definition byte_of (n : N) : byte :=
  match Byte.of_N n with Some b => b | None => x00 end.

(** [base64.b64encode(file_bytes).decode('utf-8')]: three bytes give four
    characters; one or two trailing bytes are completed with [=]. *)
Fixpoint b64encode (bs : list byte) : string :=
  match bs with
  | [] => ""
  | [a] =>
      let a := Byte.to_N a in
      String (char_of (a / 4))
        (String (char_of ((a mod 4) * 16))
           (String pad (String pad "")))
  | [a; b] =>
      let a := Byte.to_N a in
      let b := Byte.to_N b in
      String (char_of (a / 4))
        (String (char_of ((a mod 4) * 16 + b / 16))
           (String (char_of ((b mod 16) * 4))
              (String pad "")))
  | a :: b :: c :: rest =>
      let a := Byte.to_N a in
      let b := Byte.to_N b in
      let c := Byte.to_N c in
      String (char_of (a / 4))
        (String (char_of ((a mod 4) * 16 + b / 16))
           (String (char_of ((b mod 16) * 4 + c / 64))
              (String (char_of (c mod 64)) (b64encode rest))))
  end%N.

Definition first_byte (s1 s2 : N) : byte := byte_of (s1 * 4 + s2 / 16).
Definition second_byte (s2 s3 : N) : byte := byte_of ((s2 mod 16) * 16 + s3 / 4).
Definition third_byte (s3 s4 : N) : byte := byte_of ((s3 mod 4) * 64 + s4).

(** A group of four alphabet characters: three bytes. *)
Definition decode_quad (c1 c2 c3 c4 : ascii) : option (list byte) :=
  match index_of c1, index_of c2, index_of c3, index_of c4 with
  | Some s1, Some s2, Some s3, Some s4 =>
      Some [first_byte s1 s2; second_byte s2 s3; third_byte s3 s4]
  | _, _, _, _ => None
  end.

(** The last group, which may end in one or two [=]. *)
Definition decode_last (c1 c2 c3 c4 : ascii) : option (list byte) :=
  if Ascii.eqb c4 pad then
    if Ascii.eqb c3 pad then
      match index_of c1, index_of c2 with
      | Some s1, Some s2 => Some [first_byte s1 s2]
      | _, _ => None
      end
    else
      match index_of c1, index_of c2, index_of c3 with
      | Some s1, Some s2, Some s3 => Some [first_byte s1 s2; second_byte s2 s3]
      | _, _, _ => None
      end
  else decode_quad c1 c2 c3 c4.

(** The decoder of RFC 4648, section 4: the reference against which the
    encoder is checked. The length must be a multiple of four and padding
    may only end the text. *)
Fixpoint b64decode (s : string) : option (list byte) :=
  match s with
  | EmptyString => Some []
  | String c1 (String c2 (String c3 (String c4 rest))) =>
      match rest with
      | EmptyString => decode_last c1 c2 c3 c4
      | String _ _ =>
          match decode_quad c1 c2 c3 c4, b64decode rest with
          | Some q, Some r => Some (q ++ r)
          | _, _ => None
          end
      end
  | _ => None
  end.

End Base64.

(** [image_to_base64(file_bytes, mime_type)]:
    [f"data:{mime_type};base64,{base64_image}"]. *)
Definition image_to_base64 (file_bytes : list byte) (mime_type : string) : string :=
  let base64_image := Base64.b64encode file_bytes in
  "data:" +:+ mime_type +:+ ";base64," +:+ base64_image.

(* ===================================================================== *)
(** ** Values exchanged with the client and with the completion API *)
(* ===================================================================== *)

(** A number read by [json.loads]: a Python [int] or a [float]. *)
Inductive json_number :=
| JInt (z : Z)
| JFloat (f : spec_float).

(** The Python value that [json.loads] returns. A [dict] is kept as the
    list of its items. *)
#[warnings="-register-all"]
Inductive json :=
| JNull
| JBool (b : bool)
| JNum (n : json_number)
| JStr (s : string)
| JArr (items : list json)
| JObj (items : list (string * json)).

(** Truth value of a Python object, as [if x:] and [x or y] read it. *)
Definition truthy (v : json) : bool :=
  match v with
  | JNull => false
  | JBool b => b
  | JNum (JInt z) => negb (z =? 0)%Z
  | JNum (JFloat (S754_zero _)) => false
  | JNum (JFloat _) => true
  | JStr s => str_truthy s
  | JArr items => match items with [] => false | _ :: _ => true end
  | JObj items => match items with [] => false | _ :: _ => true end
  end.

(** One element of the [message_content] list. *)
Inductive part :=
| text_part (text : json)         (* {"type": "text", "text": ...} *)
| image_url_part (url : string).  (* {"type": "image_url", "image_url": {"url": ...}} *)

Inductive role := system | user | assistant.

Inductive content :=
| Text (s : string)
| Parts (parts : list part).

(** One entry of [chat_history]: [{"role": ..., "content": ...}]. *)
Record message := { msg_role : role; msg_content : content }.

(** One item of the upstream stream; [choices] holds
    [choice.delta.content] of each choice. *)
Record chunk := { choices : list (option string) }.

(** What is sent on the websocket. *)
Inductive frame :=
| send_text (s : string)
| close_frame (code : option nat).

(** The exceptions that the handlers raise or let through. *)
Inductive exn :=
| HTTPException (status_code : nat) (detail : string)
| AttributeError
| TypeError
| IndexError
| JSONDecodeError
| UpstreamError
| WebSocketDisconnect.

(** The text of [f"ERROR: {e}"] is the library's; only its prefix is the
    program's. *)
Definition error_text (e : exn) : string :=
  "ERROR: " +:+
  match e with
  | HTTPException _ detail => detail
  | AttributeError => "AttributeError"
  | TypeError => "TypeError"
  | IndexError => "IndexError"
  | JSONDecodeError => "JSONDecodeError"
  | UpstreamError => "UpstreamError"
  | WebSocketDisconnect => "WebSocketDisconnect"
  end.

(* ===================================================================== *)
(** ** The state and the monad of the handlers *)
(* ===================================================================== *)

Record world := {
  uploaded_data_store : gmap string string;  (* the module-level dict *)
  chat_history : list message;               (* local to one connection *)
  sent : list frame;                         (* frames sent, oldest first *)
  requests : list (list message)             (* [messages=] of each upstream call *)
}.

Inductive result (A : Type) :=
| Ok (a : A)
| Raise (e : exn).
Arguments Ok {A} a.
Arguments Raise {A} e.

(** A computation reads and writes the world and returns or raises; what
    it wrote before raising stays written. *)
Definition M (A : Type) : Type := world -> result A * world.

Definition ret {A} (a : A) : M A := fun w => (Ok a, w).

Definition raise {A} (e : exn) : M A := fun w => (Raise e, w).

Definition bind {A B} (m : M A) (k : A -> M B) : M B :=
  fun w =>
    match m w with
    | (Ok a, w') => k a w'
    | (Raise e, w') => (Raise e, w')
    end.

(** [try: m  except: h]. *)
Definition try_except {A} (m : M A) (h : exn -> M A) : M A :=
  fun w =>
    match m w with
    | (Ok a, w') => (Ok a, w')
    | (Raise e, w') => h e w'
    end.

Declare Scope M_scope.
Delimit Scope M_scope with M.
Notation "x <- m ;; k" := (bind m (fun x => k))
  (at level 100, m at next level, k at level 200, right associativity) : M_scope.
Notation "m ;; k" := (bind m (fun _ => k))
  (at level 100, k at level 200, right associativity) : M_scope.
Open Scope M_scope.

Definition or_raise {A} (o : option A) (e : exn) : M A :=
  match o with Some a => ret a | None => raise e end.

(** [uploaded_data_store[session_id] = payload]. *)
Definition store_put (session_id payload : string) : M unit :=
  fun w =>
    (Ok tt,
     {| uploaded_data_store := <[session_id := payload]> (uploaded_data_store w);
        chat_history := chat_history w; sent := sent w; requests := requests w |}).

(** [uploaded_data_store.pop(session_id, None)]. *)
Definition store_pop (session_id : string) : M (option string) :=
  fun w =>
    (Ok (uploaded_data_store w !! session_id),
     {| uploaded_data_store := delete session_id (uploaded_data_store w);
        chat_history := chat_history w; sent := sent w; requests := requests w |}).

(** [chat_history.append(m)]. *)
Definition history_append (m : message) : M unit :=
  fun w =>
    (Ok tt,
     {| uploaded_data_store := uploaded_data_store w;
        chat_history := chat_history w ++ [m];
        sent := sent w; requests := requests w |}).

(** The world after [frames] more have been sent. *)
Definition with_sent (w : world) (frames : list frame) : world :=
  {| uploaded_data_store := uploaded_data_store w;
     chat_history := chat_history w;
     sent := sent w ++ frames;
     requests := requests w |}.

(** [await websocket.send_text(s)] and [await websocket.close(...)]. The
    client is taken to be connected while a turn runs: a send succeeds, and
    the client leaving is seen at the next [receive_text]. *)
Definition emit (f : frame) : M unit :=
  fun w => (Ok tt, with_sent w [f]).

(* ===================================================================== *)
(** ** File processing and the upload endpoint *)
(* ===================================================================== *)

(** The file of a multipart request: [await file.read()] and
    [file.content_type], which is [None] when the part declares no type. *)
Record upload_part := { file_bytes : list byte; content_type : option string }.

(** The content of the [JSONResponse] of [upload_file]. *)
Record upload_response := {
  resp_message : string;
  resp_file_type : string;
  resp_session_id : string
}.

Definition pdf_fallback : string := "Could not extract text from the PDF file.".

Definition pdf_preamble : string :=
  "The user uploaded a PDF. The extracted text is as follows:" +:+ nl +:+ "---" +:+ nl.

Definition pdf_trailer : string := nl +:+ "---" +:+ nl.

(** PyMuPDF: [fitz.open(stream=..., filetype="pdf")] gives the pages of the
    document and [page.get_text()] the text of one page; either may raise. *)
Class PdfLibrary := {
  page : Type;
  fitz_open : list byte -> option (list page);
  get_text : page -> option string
}.

Section FileProcessor.

Context {pdf_library : PdfLibrary}.

(** [for page in doc: text += page.get_text()]. *)
Fixpoint extract_pages (doc : list page) (text : string) : option string :=
  match doc with
  | [] => Some text
  | p :: doc' =>
      match get_text p with
      | Some t => extract_pages doc' (text +:+ t)
      | None => None
      end
  end.

(** The text of the whole document, when nothing raises. *)
Definition extracted (file_bytes : list byte) : option string :=
  match fitz_open file_bytes with
  | Some doc => extract_pages doc ""
  | None => None
  end.

Definition pdf_to_text (file_bytes : list byte) : string :=
  match extracted file_bytes with
  | Some text => str_take PDF_TEXT_LIMIT text
  | None => pdf_fallback
  end.

(** The branch on [mime_type]: the processed content and
    [content_type_description]. *)
Definition process_upload (file_bytes : list byte) (mime_type : string)
  : M (string * string) :=
  if startswith "image/" mime_type then
    ret (image_to_base64 file_bytes mime_type, "an image")
  else if String.eqb mime_type "application/pdf" then
    let extracted_text := pdf_to_text file_bytes in
    ret (pdf_preamble +:+ extracted_text +:+ pdf_trailer, "a PDF")
  else
    raise (HTTPException 400 "Unsupported file type.").

Definition upload_file (file : upload_part) (session_id : string)
  : M upload_response :=
  (* [None.startswith] is an AttributeError *)
  mime_type <- or_raise (content_type file) AttributeError ;;
  processed <- process_upload (file_bytes file) mime_type ;;
  store_put session_id (fst processed) ;;
  ret {| resp_message :=
           "Successfully uploaded and processed " +:+ snd processed +:+ ".";
         resp_file_type := mime_type;
         resp_session_id := session_id |}.

End FileProcessor.

(* ===================================================================== *)
(** ** The relay loop of [websocket_endpoint] *)
(* ===================================================================== *)

Definition system_directive : message :=
  {| msg_role := system;
     msg_content := Text "If the user provides a blood test image or PDF, summarize the results and provide general, non-medical advice. Don't respond to anything not blood test related. Keep it short. Be helpful." |}.

Definition default_image_prompt : string :=
  "Analyze this image and respond to my prompt.".

Definition user_prompt_separator : string := nl +:+ nl +:+ "User prompt: ".

(** How one pass through the loop body ends: at [continue], or at its last
    statement with the value of [full_bot_response]. *)
Inductive turn_end :=
| Skipped
| Streamed (full_bot_response : string).

(** [d[key]] in the items of a dict. *)
Fixpoint items_lookup (key : string) (items : list (string * json)) : option json :=
  match items with
  | [] => None
  | (k, v) :: items' => if String.eqb k key then Some v else items_lookup key items'
  end.

(** [message_payload.get(key, default)]; only a dict has [get]. *)
Definition dict_get (message_payload : json) (key : string) (default : json) : M json :=
  match message_payload with
  | JObj items =>
      ret (match items_lookup key items with Some v => v | None => default end)
  | _ => raise AttributeError
  end.

(** [s + v]: defined when [v] is a [str]. *)
Definition str_add (s : string) (v : json) : M string :=
  match v with
  | JStr t => ret (s +:+ t)
  | _ => raise TypeError
  end.

(** Step 2 of the loop body: the list [message_content]. *)
Definition build_message_content (user_message : json)
  (file_content_data : option string) : M (list part) :=
  match file_content_data with
  | Some data =>
      if str_truthy data then
        if startswith "data:image/" data then
          ret [text_part (if truthy user_message then user_message
                          else JStr default_image_prompt);
               image_url_part data]
        else
          text <- str_add (data +:+ user_prompt_separator) user_message ;;
          ret [text_part (JStr text)]
      else if truthy user_message then ret [text_part user_message]
      else ret []
  | None =>
      if truthy user_message then ret [text_part user_message] else ret []
  end.

(** Step 5: [async for chunk in stream]. *)
Fixpoint relay_chunks (stream : list chunk) (full_bot_response : string) : M string :=
  match stream with
  | [] => ret full_bot_response
  | chunk :: stream' =>
      content <- or_raise (head (choices chunk)) IndexError ;;
      match content with
      | Some c =>
          if str_truthy c then
            emit (send_text c) ;;
            relay_chunks stream' (full_bot_response +:+ c)
          else relay_chunks stream' full_bot_response
      | None => relay_chunks stream' full_bot_response
      end
  end.

(** [json.loads]; [None] is a [JSONDecodeError]. *)
Class JsonLibrary := { json_loads : string -> option json }.

(** [client.chat.completions.create(model=..., messages=..., stream=True)]:
    the chunks of the stream, or [None] when the call raises. *)
Class CompletionApi := {
  completions_create : list message -> option (list chunk)
}.

(** The contents of a stream, in order: [chunk.choices[0].delta.content]
    of each chunk where it is a string, the empty string included. *)
Fixpoint fragments (stream : list chunk) : list string :=
  match stream with
  | [] => []
  | chunk :: stream' =>
      match head (choices chunk) with
      | Some (Some c) => c :: fragments stream'
      | _ => fragments stream'
      end
  end.

(** The fragments of text that a stream produces, in order: the pieces of
    text of its chunks. A chunk whose content is [None] or the empty string
    carries no text. *)
Fixpoint text_fragments (stream : list chunk) : list string :=
  match stream with
  | [] => []
  | chunk :: stream' =>
      match head (choices chunk) with
      | Some (Some (String a c)) => String a c :: text_fragments stream'
      | _ => text_fragments stream'
      end
  end.

(** The user entry that a turn appends. *)
Definition user_entry (message_content : list part) : message :=
  {| msg_role := user; msg_content := Parts message_content |}.

(** The assistant entry that a turn appends. *)
Definition assistant_entry (full_bot_response : string) : message :=
  {| msg_role := assistant; msg_content := Text full_bot_response |}.

Section Relay.

Context {json_library : JsonLibrary} {completion_api : CompletionApi}.

(** Step 1, after [receive_text]: [user_message] and [file_content_data]. *)
Definition read_payload (session_id raw_data : string) : M (json * option string) :=
  try_except
    (message_payload <- or_raise (json_loads raw_data) JSONDecodeError ;;
     user_message <- dict_get message_payload "text" (JStr "") ;;
     file_content_data <- store_pop session_id ;;
     ret (user_message, file_content_data))
    (fun e =>
       match e with
       | JSONDecodeError => ret (JStr raw_data, None)
       | _ => raise e
       end).

(** Step 4: the request is made with the whole [chat_history]. *)
Definition request_stream : M (list chunk) :=
  fun w =>
    let w' := {| uploaded_data_store := uploaded_data_store w;
                 chat_history := chat_history w;
                 sent := sent w;
                 requests := requests w ++ [chat_history w] |} in
    match completions_create (chat_history w) with
    | Some stream => (Ok stream, w')
    | None => (Raise UpstreamError, w')
    end.

(** Steps 2 to 6 of the loop body. *)
Definition respond (user_message : json) (file_content_data : option string)
  : M turn_end :=
  message_content <- build_message_content user_message file_content_data ;;
  match message_content with
  | [] => ret Skipped
  | _ :: _ =>
      history_append (user_entry message_content) ;;
      stream <- request_stream ;;
      full_bot_response <- relay_chunks stream "" ;;
      (if str_truthy full_bot_response then
         history_append (assistant_entry full_bot_response)
       else ret tt) ;;
      ret (Streamed full_bot_response)
  end.

(** One pass through the body of [while True], for the text received. *)
Definition loop_body (session_id raw_data : string) : M turn_end :=
  received <- read_payload session_id raw_data ;;
  respond (fst received) (snd received).

(** The loop over the texts that [receive_text] returns; when the client
    has gone, [receive_text] raises [WebSocketDisconnect]. *)
Fixpoint relay_loop (session_id : string) (incoming : list string) : M unit :=
  match incoming with
  | [] => raise WebSocketDisconnect
  | raw_data :: incoming' =>
      loop_body session_id raw_data ;;
      relay_loop session_id incoming'
  end.

Definition history_init : M unit :=
  fun w =>
    (Ok tt,
     {| uploaded_data_store := uploaded_data_store w;
        chat_history := [system_directive];
        sent := sent w; requests := requests w |}).

Definition websocket_endpoint (session_id : option string)
  (incoming : list string) : M unit :=
  match session_id with
  | Some sid =>
      if str_truthy sid then
        history_init ;;
        try_except (relay_loop sid incoming)
          (fun e =>
             match e with
             | WebSocketDisconnect => ret tt
             | _ => emit (send_text (error_text e)) ;; emit (close_frame None)
             end)
      else emit (close_frame (Some 1008))
  | None => emit (close_frame (Some 1008))
  end.

End Relay.

(* ===================================================================== *)
(** ** Concrete collaborators and inputs for the worked examples *)
(* ===================================================================== *)

Module Sample.

(** A fresh connection: nothing stored, nothing sent, the system directive
    in the history. *)
Definition world0 : world :=
  {| uploaded_data_store := ∅;
     chat_history := [system_directive];
     sent := [];
     requests := [] |}.

Fixpoint str_repeat (c : ascii) (n : nat) : string :=
  match n with
  | O => ""
  | S n' => String c (str_repeat c n')
  end.

(** A document of five pages of 4,000 characters each; a page is given by
    its text. *)
Definition five_pages : list string :=
  repeat (str_repeat "a"%char (N.to_nat 4000)) 5.

(** A PDF library that reads every file as that document. *)
Definition five_page_pdf : PdfLibrary :=
  {| page := string;
     fitz_open := fun _ => Some five_pages;
     get_text := fun p => Some p |}.

(** A PDF library that can open no file. *)
Definition broken_pdf : PdfLibrary :=
  {| page := string;
     fitz_open := fun _ => None;
     get_text := fun p => Some p |}.

(** The first bytes of a PDF file and of a PNG file. *)
Definition pdf_bytes : list byte := [x25; x50; x44; x46; x2d].
Definition png_bytes : list byte := [x89; x50; x4e; x47; x0d; x0a; x1a; x0a].

Definition pdf_upload : upload_part :=
  {| file_bytes := pdf_bytes; content_type := Some "application/pdf" |}.
Definition png_upload : upload_part :=
  {| file_bytes := png_bytes; content_type := Some "image/png" |}.
Definition txt_upload : upload_part :=
  {| file_bytes := [x68; x69]; content_type := Some "text/plain" |}.

(** The double quote. *)
Definition dq : string := String "034"%char "".

(** The text of the JSON object with the one key [text]. *)
Definition text_object (t : string) : string :=
  "{" +:+ dq +:+ "text" +:+ dq +:+ ": " +:+ dq +:+ t +:+ dq +:+ "}".

(** [json.loads] on the three texts the examples send: two objects, and
    the bare word [hello], which is not JSON. Only these are used. *)
Definition three_texts : JsonLibrary :=
  {| json_loads := fun raw_data =>
       if String.eqb raw_data (text_object "") then
         Some (JObj [("text", JStr "")])
       else if String.eqb raw_data (text_object "hello") then
         Some (JObj [("text", JStr "hello")])
       else None |}.

Definition delta (content : option string) : chunk := {| choices := [content] |}.

(** An upstream that answers every request with the same four chunks, the
    first with empty content and the last with none. *)
Definition hi_stream : list chunk :=
  [delta (Some ""); delta (Some "Hi"); delta (Some " there"); delta None].

Definition answers_hi : CompletionApi :=
  {| completions_create := fun _ => Some hi_stream |}.

(** An upstream whose stream carries no text. *)
Definition answers_nothing : CompletionApi :=
  {| completions_create := fun _ => Some [delta (Some ""); delta None] |}.

(** A world in which an image is pending for session [s1]. *)
Definition world_pending : world :=
  {| uploaded_data_store := {[ "s1" := "data:image/png;base64,iVBORw0KGgo=" ]};
     chat_history := [system_directive];
     sent := [];
     requests := [] |}.

End Sample.

(* ===================================================================== *)
(** ** The loop body after step 2, and further inputs *)
(* ===================================================================== *)

(** The world once the user entry is appended and the request made
    (steps 3 and 4). *)
Definition with_user_turn (w : world) (message_content : list part) : world :=
  {| uploaded_data_store := uploaded_data_store w;
     chat_history := chat_history w ++ [user_entry message_content];
     sent := sent w;
     requests := requests w ++ [chat_history w ++ [user_entry message_content]] |}.

(** The world once the assistant entry is appended (step 6). *)
Definition with_assistant_turn (w : world) (full_bot_response : string) : world :=
  {| uploaded_data_store := uploaded_data_store w;
     chat_history := chat_history w ++ [assistant_entry full_bot_response];
     sent := sent w;
     requests := requests w |}.

(** The world once the entry of a session is popped (step 1). *)
Definition with_popped (w : world) (session_id : string) : world :=
  {| uploaded_data_store := delete session_id (uploaded_data_store w);
     chat_history := chat_history w;
     sent := sent w;
     requests := requests w |}.

Section RelaySteps.

Context {completion_api : CompletionApi}.

(** Steps 3 to 6 of the loop body, for a [message_content] that is not
    empty. *)
Definition answer (message_content : list part) : M turn_end :=
  history_append (user_entry message_content) ;;
  stream <- request_stream ;;
  full_bot_response <- relay_chunks stream "" ;;
  (if str_truthy full_bot_response then
     history_append (assistant_entry full_bot_response)
   else ret tt) ;;
  ret (Streamed full_bot_response).

End RelaySteps.

(** The text that [user_message] gets from a parsed object. *)
Definition text_of (items : list (string * json)) : json :=
  match items_lookup "text" items with Some v => v | None => JStr "" end.

(** A character that base64 text may hold: of the alphabet, or the
    padding. *)
Definition b64_char_ok (c : ascii) : Prop :=
  c = Base64.pad \/ is_Some (Base64.index_of c).

Module Scenario.

(** [{"text": null}], [[1]] and [{}]. *)
Definition null_text_object : string :=
  "{" +:+ Sample.dq +:+ "text" +:+ Sample.dq +:+ ": null}".
Definition list_text : string := "[1]".
Definition empty_object : string := "{}".

(** [json.loads] on the texts of [Sample.three_texts] and on these three;
    only these are used. *)
Definition json_table : JsonLibrary :=
  {| json_loads := fun raw_data =>
       if String.eqb raw_data null_text_object then
         Some (JObj [("text", JNull)])
       else if String.eqb raw_data list_text then
         Some (JArr [JNum (JInt 1)])
       else if String.eqb raw_data empty_object then
         Some (JObj [])
       else json_loads (JsonLibrary := Sample.three_texts) raw_data |}.

(** An upstream whose every call raises. *)
Definition upstream_down : CompletionApi :=
  {| completions_create := fun _ => None |}.

(** A stream whose second chunk has no choice. *)
Definition broken_stream : list chunk :=
  [Sample.delta (Some "Hi"); {| choices := [] |}; Sample.delta (Some " there")].

Definition answers_broken : CompletionApi :=
  {| completions_create := fun _ => Some broken_stream |}.

(** A document of two short pages. *)
Definition two_page_pdf : PdfLibrary :=
  {| page := string;
     fitz_open := fun _ => Some ["Hb 13.5 g/dL. "; "WBC 6.1."];
     get_text := fun p => Some p |}.

(** A document whose second page cannot be read: a page is its text, and
    the empty page stands for the unreadable one. *)
Definition second_page_fails : PdfLibrary :=
  {| page := string;
     fitz_open := fun _ => Some ["Hb 13.5 g/dL. "; ""];
     get_text := fun p => if str_truthy p then Some p else None |}.

(** An upload that declares no content type. *)
Definition untyped_upload : upload_part :=
  {| file_bytes := [x68; x69]; content_type := None |}.

Definition jpeg_upload : upload_part :=
  {| file_bytes := [xff; xd8; xff]; content_type := Some "image/jpeg" |}.

(** The payload that [upload_file] stores for the two-page document. *)
Definition pdf_payload : string :=
  pdf_preamble +:+ "Hb 13.5 g/dL. WBC 6.1." +:+ pdf_trailer.

(** A world in which that payload is pending for session [s1], and an
    image for session [s2]. *)
Definition world_pdf_pending : world :=
  {| uploaded_data_store :=
       {[ "s1" := pdf_payload; "s2" := "data:image/png;base64,iVBORw0KGgo=" ]};
     chat_history := [system_directive];
     sent := [];
     requests := [] |}.

End Scenario.

(* ===================================================================== *)
(** * Properties *)
(* ===================================================================== *)

(** ** Strings *)

Lemma str_take_length (n : nat) (s : string) :
  String.length (str_take n s) = Nat.min n (String.length s).
Proof.
  unfold str_take. revert s.
  induction n as [|n IH]; intros [|c s]; simpl; auto.
Qed.

Lemma append_cons (c : ascii) (s t : string) :
  String c s +:+ t = String c (s +:+ t).
Proof. reflexivity. Qed.

Lemma append_empty_l (s : string) : "" +:+ s = s.
Proof. reflexivity. Qed.

Lemma append_empty_r (s : string) : s +:+ "" = s.
Proof.
  induction s as [|c s IH]; [reflexivity|].
  now rewrite append_cons, IH.
Qed.

Lemma append_assoc (a b c : string) : (a +:+ b) +:+ c = a +:+ (b +:+ c).
Proof.
  induction a as [|x a IH]; [reflexivity|].
  now rewrite !append_cons, IH.
Qed.

Lemma str_truthy_true (s : string) : str_truthy s = true <-> s <> "".
Proof. destruct s; simpl; split; congruence. Qed.

(** ** The Session Store *)

(** C6. A [take] of a session id right after a [put] of a payload for that
    id returns exactly that payload, and a second [take] returns absent
    ([None]). *)
Theorem take_after_put (session_id payload : string) (w : world) :
  let w1 := snd (store_put session_id payload w) in
  let w2 := snd (store_pop session_id w1) in
  fst (store_pop session_id w1) = Ok (Some payload) /\
  fst (store_pop session_id w2) = Ok None.
Proof.
  simpl. split; f_equal.
  - apply lookup_insert_eq.
  - apply lookup_delete_eq.
Qed.

(** ** Base64: decoding undoes encoding *)

Section Base64Facts.
Import Base64.

Lemma sextet_cases (n : N) :
  (n < 64)%N -> exists k : nat, k < 64 /\ n = N.of_nat k.
Proof. intros H. exists (N.to_nat n). lia. Qed.

Lemma index_of_char_of (n : N) : (n < 64)%N -> index_of (char_of n) = Some n.
Proof.
  intros H. destruct (sextet_cases n H) as (k & Hk & ->).
  do 64 (destruct k as [|k]; [reflexivity|]). lia.
Qed.

Lemma char_of_not_pad (n : N) : (n < 64)%N -> Ascii.eqb (char_of n) pad = false.
Proof.
  intros H. apply Ascii.eqb_neq. intros E.
  pose proof (index_of_char_of n H) as Hi. rewrite E in Hi. discriminate Hi.
Qed.

Lemma byte_of_to_N (b : byte) : byte_of (Byte.to_N b) = b.
Proof. unfold byte_of. now rewrite Byte.of_to_N. Qed.

Lemma byte_lt_256 (b : byte) : (Byte.to_N b < 256)%N.
Proof. pose proof (Byte.to_N_bounded b). lia. Qed.

Ltac sextet_arith := zify; Z.to_euclidean_division_equations; lia.

Lemma first_byte_ok (a b : N) :
  (a < 256)%N -> (b < 256)%N ->
  (a / 4 * 4 + ((a mod 4) * 16 + b / 16) / 16 = a)%N.
Proof. intros. sextet_arith. Qed.

Lemma second_byte_ok (a b c : N) :
  (a < 256)%N -> (b < 256)%N -> (c < 256)%N ->
  ((((a mod 4) * 16 + b / 16) mod 16) * 16 + ((b mod 16) * 4 + c / 64) / 4 = b)%N.
Proof. intros. sextet_arith. Qed.

Lemma third_byte_ok (b c : N) :
  (b < 256)%N -> (c < 256)%N ->
  ((((b mod 16) * 4 + c / 64) mod 4) * 64 + c mod 64 = c)%N.
Proof. intros. sextet_arith. Qed.

Lemma decode_quad_encoded (a b c : byte) :
  let x := Byte.to_N a in
  let y := Byte.to_N b in
  let z := Byte.to_N c in
  decode_quad (char_of (x / 4)) (char_of ((x mod 4) * 16 + y / 16))
    (char_of ((y mod 16) * 4 + z / 64)) (char_of (z mod 64))%N
  = Some [a; b; c].
Proof.
  intros x y z.
  pose proof (byte_lt_256 a) as Ha. pose proof (byte_lt_256 b) as Hb.
  pose proof (byte_lt_256 c) as Hc. fold x in Ha. fold y in Hb. fold z in Hc.
  unfold decode_quad.
  rewrite !index_of_char_of by sextet_arith.
  unfold first_byte, second_byte, third_byte.
  rewrite first_byte_ok, second_byte_ok, third_byte_ok by assumption.
  unfold x, y, z. now rewrite !byte_of_to_N.
Qed.

Lemma decode_last_one (a : byte) :
  let x := Byte.to_N a in
  decode_last (char_of (x / 4)) (char_of ((x mod 4) * 16)) pad pad = Some [a].
Proof.
  intros x. pose proof (byte_lt_256 a) as Ha. fold x in Ha.
  unfold decode_last. rewrite Ascii.eqb_refl.
  rewrite !index_of_char_of by sextet_arith.
  unfold first_byte.
  replace (x / 4 * 4 + x mod 4 * 16 / 16)%N with x by sextet_arith.
  unfold x. now rewrite byte_of_to_N.
Qed.

Lemma decode_last_two (a b : byte) :
  let x := Byte.to_N a in
  let y := Byte.to_N b in
  decode_last (char_of (x / 4)) (char_of ((x mod 4) * 16 + y / 16))
    (char_of ((y mod 16) * 4)) pad%N
  = Some [a; b].
Proof.
  intros x y.
  pose proof (byte_lt_256 a) as Ha. pose proof (byte_lt_256 b) as Hb.
  fold x in Ha. fold y in Hb.
  unfold decode_last. rewrite Ascii.eqb_refl.
  rewrite char_of_not_pad by sextet_arith.
  rewrite !index_of_char_of by sextet_arith.
  unfold first_byte, second_byte.
  rewrite first_byte_ok by assumption.
  replace (((x mod 4 * 16 + y / 16) mod 16) * 16 + y mod 16 * 4 / 4)%N
    with y by sextet_arith.
  unfold x, y. now rewrite !byte_of_to_N.
Qed.

Lemma decode_last_three (a b c : byte) :
  let x := Byte.to_N a in
  let y := Byte.to_N b in
  let z := Byte.to_N c in
  decode_last (char_of (x / 4)) (char_of ((x mod 4) * 16 + y / 16))
    (char_of ((y mod 16) * 4 + z / 64)) (char_of (z mod 64))%N
  = Some [a; b; c].
Proof.
  intros x y z. unfold decode_last.
  pose proof (byte_lt_256 c) as Hc. fold z in Hc.
  rewrite char_of_not_pad by sextet_arith.
  apply decode_quad_encoded.
Qed.

(** Induction on a list three elements at a time. *)
Lemma list_triples_ind {A : Type} (P : list A -> Prop) :
  P [] -> (forall a, P [a]) -> (forall a b, P [a; b]) ->
  (forall a b c l, P l -> P (a :: b :: c :: l)) ->
  forall l, P l.
Proof.
  intros H0 H1 H2 H3 l.
  enough (P l /\ (forall a, P (a :: l)) /\ (forall a b, P (a :: b :: l)))
    as [Hl _] by exact Hl.
  induction l as [|x l (IH0 & IH1 & IH2)].
  - repeat split; auto.
  - repeat split; auto.
Qed.

Lemma b64encode_triple (a b c : byte) (rest : list byte) :
  let x := Byte.to_N a in
  let y := Byte.to_N b in
  let z := Byte.to_N c in
  b64encode (a :: b :: c :: rest) =
  String (char_of (x / 4))
    (String (char_of ((x mod 4) * 16 + y / 16))
       (String (char_of ((y mod 16) * 4 + z / 64))
          (String (char_of (z mod 64)) (b64encode rest))))%N.
Proof. reflexivity. Qed.

Lemma b64encode_empty_iff (bs : list byte) : b64encode bs = "" -> bs = [].
Proof. destruct bs as [|a [|b [|c rest]]]; simpl; congruence. Qed.

Lemma b64decode_b64encode (bs : list byte) :
  b64decode (b64encode bs) = Some bs.
Proof.
  induction bs as [|a|a b|a b c rest IH] using list_triples_ind.
  - reflexivity.
  - apply decode_last_one.
  - apply decode_last_two.
  - rewrite b64encode_triple. cbv zeta.
    cbn [b64decode].
    destruct (b64encode rest) as [|ch tail] eqn:E.
    + apply b64encode_empty_iff in E. subst rest. apply decode_last_three.
    + rewrite decode_quad_encoded, IH. reflexivity.
Qed.

End Base64Facts.

(** ** The upload endpoint *)

Create HintDb handlers.
#[local] Hint Unfold bind ret raise or_raise try_except store_put store_pop
  history_append emit : handlers.

Ltac run_handlers := autounfold with handlers; cbn [fst snd].

Section UploadFacts.

Context {pdf_library : PdfLibrary}.

(** What an upload declared as PDF does: it succeeds and stores the wrapped
    text under the session id. *)
Lemma upload_pdf_run (file : upload_part) (session_id : string) (w : world) :
  content_type file = Some "application/pdf" ->
  upload_file file session_id w =
  (Ok {| resp_message := "Successfully uploaded and processed a PDF.";
         resp_file_type := "application/pdf";
         resp_session_id := session_id |},
   {| uploaded_data_store :=
        <[session_id := pdf_preamble +:+ pdf_to_text (file_bytes file) +:+ pdf_trailer]>
          (uploaded_data_store w);
      chat_history := chat_history w; sent := sent w; requests := requests w |}).
Proof.
  intros Hct. unfold upload_file. run_handlers.
  rewrite Hct. reflexivity.
Qed.

(** What an upload declared as an image does. *)
Lemma upload_image_run (file : upload_part) (session_id mime : string) (w : world) :
  content_type file = Some mime ->
  startswith "image/" mime = true ->
  upload_file file session_id w =
  (Ok {| resp_message := "Successfully uploaded and processed an image.";
         resp_file_type := mime;
         resp_session_id := session_id |},
   {| uploaded_data_store :=
        <[session_id := image_to_base64 (file_bytes file) mime]>
          (uploaded_data_store w);
      chat_history := chat_history w; sent := sent w; requests := requests w |}).
Proof.
  intros Hct Himg. unfold upload_file. run_handlers.
  rewrite Hct. unfold process_upload. rewrite Himg. reflexivity.
Qed.

Lemma pdf_to_text_length (file_bytes : list byte) :
  String.length (pdf_to_text file_bytes) <= PDF_TEXT_LIMIT.
Proof.
  unfold pdf_to_text.
  destruct (extracted file_bytes) as [text|].
  - rewrite str_take_length. lia.
  - vm_compute. lia.
Qed.

(** C7. An upload whose declared content type is neither an image type nor
    [application/pdf] is rejected with the client error 400, and nothing
    changes: the Session Store (and the rest of the state) is as before. *)
Theorem unsupported_upload_rejected
  (file : upload_part) (session_id mime : string) (w : world) :
  content_type file = Some mime ->
  startswith "image/" mime = false ->
  mime <> "application/pdf" ->
  fst (upload_file file session_id w)
    = Raise (HTTPException 400 "Unsupported file type.") /\
  snd (upload_file file session_id w) = w /\
  uploaded_data_store (snd (upload_file file session_id w)) = uploaded_data_store w.
Proof.
  intros Hct Himg Hpdf.
  assert (upload_file file session_id w
          = (Raise (HTTPException 400 "Unsupported file type."), w)) as ->.
  { unfold upload_file. run_handlers.
    rewrite Hct. unfold process_upload. rewrite Himg.
    destruct (String.eqb_spec mime "application/pdf") as [E|_];
      [contradiction | reflexivity]. }
  auto.
Qed.

(** C5. For a PDF upload the extracted-text part of the stored payload,
    [pdf_to_text file_bytes], has at most 15,000 characters whatever the
    document; when the extraction raises it is the fixed fallback text, and
    the upload still succeeds. *)
Theorem pdf_text_capped (file : upload_part) (session_id : string) (w : world) :
  content_type file = Some "application/pdf" ->
  let text := pdf_to_text (file_bytes file) in
  (Z.of_nat (String.length text) <= 15000)%Z /\
  (extracted (file_bytes file) = None ->
   text = "Could not extract text from the PDF file.") /\
  (exists response, fst (upload_file file session_id w) = Ok response) /\
  uploaded_data_store (snd (upload_file file session_id w)) !! session_id
    = Some (pdf_preamble +:+ text +:+ pdf_trailer).
Proof.
  intros Hct text. rewrite (upload_pdf_run file session_id w Hct). cbn [fst snd].
  repeat split.
  - pose proof (pdf_to_text_length (file_bytes file)) as H.
    unfold PDF_TEXT_LIMIT in H. subst text. lia.
  - intros Hfail. subst text. unfold pdf_to_text.
    now rewrite Hfail.
  - eexists. reflexivity.
  - cbn. apply lookup_insert_eq.
Qed.

(** C2, as the code has it. For a PDF upload whose extracted text has
    20,000 characters the stored payload is the fixed preamble, then exactly
    the first 15,000 characters of the extracted text, then the fixed
    trailer. *)
Theorem pdf_payload_wraps_first_15000
  (file : upload_part) (session_id text : string) (w : world) :
  content_type file = Some "application/pdf" ->
  extracted (file_bytes file) = Some text ->
  Z.of_nat (String.length text) = 20000%Z ->
  uploaded_data_store (snd (upload_file file session_id w)) !! session_id
    = Some (pdf_preamble +:+ str_take PDF_TEXT_LIMIT text +:+ pdf_trailer) /\
  Z.of_nat (String.length (str_take PDF_TEXT_LIMIT text)) = 15000%Z.
Proof.
  intros Hct Htext Hlen. rewrite (upload_pdf_run file session_id w Hct).
  cbn [snd uploaded_data_store]. rewrite lookup_insert_eq.
  unfold pdf_to_text. rewrite Htext. split; [reflexivity|].
  rewrite str_take_length. unfold PDF_TEXT_LIMIT. lia.
Qed.

(** C4. For an image upload with declared type [mime] the stored payload is
    [data:<mime>;base64,] followed by a text that decodes to exactly the
    uploaded bytes. *)
Theorem image_payload_roundtrip
  (file : upload_part) (session_id mime : string) (w : world) :
  content_type file = Some mime ->
  startswith "image/" mime = true ->
  exists encoded : string,
    uploaded_data_store (snd (upload_file file session_id w)) !! session_id
      = Some ("data:" +:+ mime +:+ ";base64," +:+ encoded) /\
    Base64.b64decode encoded = Some (file_bytes file).
Proof.
  intros Hct Himg. exists (Base64.b64encode (file_bytes file)).
  rewrite (upload_image_run file session_id mime w Hct Himg).
  cbn [snd uploaded_data_store]. rewrite lookup_insert_eq.
  split; [reflexivity | apply b64decode_b64encode].
Qed.

End UploadFacts.

(** *** Worked uploads *)

(** A [text/plain] upload into a world where session [s1] has a pending
    image: rejected, and the world is as before. *)
Lemma unsupported_upload_rejected_witness :
  fst (upload_file (pdf_library := Sample.five_page_pdf)
         Sample.txt_upload "s1" Sample.world_pending)
    = Raise (HTTPException 400 "Unsupported file type.") /\
  snd (upload_file (pdf_library := Sample.five_page_pdf)
         Sample.txt_upload "s1" Sample.world_pending) = Sample.world_pending /\
  uploaded_data_store
    (snd (upload_file (pdf_library := Sample.five_page_pdf)
            Sample.txt_upload "s1" Sample.world_pending))
    = uploaded_data_store Sample.world_pending.
Proof.
  apply (unsupported_upload_rejected (pdf_library := Sample.five_page_pdf)
           Sample.txt_upload "s1" "text/plain" Sample.world_pending).
  - reflexivity.
  - reflexivity.
  - discriminate.
Defined.

(** A PDF that cannot be opened: the fallback text is stored, wrapped. *)
Lemma pdf_text_capped_witness :
  let text := pdf_to_text (pdf_library := Sample.broken_pdf) Sample.pdf_bytes in
  (Z.of_nat (String.length text) <= 15000)%Z /\
  (extracted (pdf_library := Sample.broken_pdf) Sample.pdf_bytes = None ->
   text = "Could not extract text from the PDF file.") /\
  (exists response,
     fst (upload_file (pdf_library := Sample.broken_pdf)
            Sample.pdf_upload "s1" Sample.world0) = Ok response) /\
  uploaded_data_store
    (snd (upload_file (pdf_library := Sample.broken_pdf)
            Sample.pdf_upload "s1" Sample.world0)) !! "s1"
    = Some (pdf_preamble +:+ text +:+ pdf_trailer).
Proof.
  apply (pdf_text_capped (pdf_library := Sample.broken_pdf)
           Sample.pdf_upload "s1" Sample.world0).
  reflexivity.
Defined.

Lemma str_repeat_length (c : ascii) (n : nat) :
  String.length (Sample.str_repeat c n) = n.
Proof. induction n as [|n IH]; simpl; [reflexivity | now rewrite IH]. Qed.

Lemma str_repeat_append (c : ascii) (n m : nat) :
  Sample.str_repeat c n +:+ Sample.str_repeat c m = Sample.str_repeat c (n + m).
Proof.
  induction n as [|n IH]; [reflexivity|].
  cbn [Sample.str_repeat Nat.add]. now rewrite append_cons, IH.
Qed.

Lemma str_take_repeat (c : ascii) (n m : nat) :
  n <= m -> str_take n (Sample.str_repeat c m) = Sample.str_repeat c n.
Proof.
  unfold str_take. revert m.
  induction n as [|n IH]; intros [|m] H; try reflexivity; try lia.
  cbn [Sample.str_repeat substring]. f_equal. apply IH. lia.
Qed.

Lemma five_pages_extracted :
  extracted (pdf_library := Sample.five_page_pdf) Sample.pdf_bytes
  = Some (Sample.str_repeat "a"%char (N.to_nat 20000)).
Proof.
  unfold extracted.
  change (fitz_open Sample.pdf_bytes) with (Some Sample.five_pages).
  unfold Sample.five_pages.
  remember (N.to_nat 4000) as n eqn:Hn.
  replace (N.to_nat 20000) with (n + (n + (n + (n + n)))) by lia.
  rewrite <- !str_repeat_append.
  generalize (Sample.str_repeat "a"%char n) as p. intros p.
  cbn [repeat extract_pages get_text Sample.five_page_pdf].
  now rewrite append_empty_l, !append_assoc.
Qed.

Lemma preamble_first_char (s : string) :
  String.get 0 (pdf_preamble +:+ s) = Some "T"%char.
Proof. reflexivity. Qed.

Lemma str_repeat_first_char (c : ascii) (n : nat) :
  n <> 0 -> String.get 0 (Sample.str_repeat c n) = Some c.
Proof. destruct n; [congruence | reflexivity]. Qed.

(** The five-page document of 20,000 characters. *)
Lemma pdf_payload_wraps_first_15000_witness :
  uploaded_data_store
    (snd (upload_file (pdf_library := Sample.five_page_pdf)
            Sample.pdf_upload "s1" Sample.world0)) !! "s1"
    = Some (pdf_preamble
            +:+ str_take PDF_TEXT_LIMIT (Sample.str_repeat "a"%char (N.to_nat 20000))
            +:+ pdf_trailer) /\
  Z.of_nat (String.length
              (str_take PDF_TEXT_LIMIT (Sample.str_repeat "a"%char (N.to_nat 20000))))
    = 15000%Z.
Proof.
  apply (pdf_payload_wraps_first_15000 (pdf_library := Sample.five_page_pdf)
           Sample.pdf_upload "s1" _ Sample.world0).
  - reflexivity.
  - exact five_pages_extracted.
  - rewrite str_repeat_length. lia.
Defined.

(** C2, as stated, fails on that document: what is stored is not the bare
    first 15,000 characters of the extracted text. *)
Lemma pdf_payload_is_not_bare_text :
  let text := Sample.str_repeat "a"%char (N.to_nat 20000) in
  extracted (pdf_library := Sample.five_page_pdf) Sample.pdf_bytes = Some text /\
  Z.of_nat (String.length text) = 20000%Z /\
  uploaded_data_store
    (snd (upload_file (pdf_library := Sample.five_page_pdf)
            Sample.pdf_upload "s1" Sample.world0)) !! "s1"
    <> Some (str_take PDF_TEXT_LIMIT text).
Proof.
  cbv zeta. split; [exact five_pages_extracted|]. split.
  - rewrite str_repeat_length. lia.
  - rewrite (upload_pdf_run Sample.pdf_upload "s1" Sample.world0 eq_refl).
    cbn [snd uploaded_data_store]. rewrite lookup_insert_eq.
    intros H.
    apply (f_equal (fun o => match o with
                             | Some s => String.get 0 s
                             | None => None
                             end)) in H.
    cbv beta iota in H.
    rewrite preamble_first_char in H.
    rewrite str_take_repeat in H by (unfold PDF_TEXT_LIMIT; lia).
    rewrite str_repeat_first_char in H by (unfold PDF_TEXT_LIMIT; lia).
    discriminate H.
Qed.

(** A PNG upload. *)
Lemma image_payload_roundtrip_witness :
  exists encoded : string,
    uploaded_data_store
      (snd (upload_file (pdf_library := Sample.five_page_pdf)
              Sample.png_upload "s1" Sample.world0)) !! "s1"
      = Some ("data:" +:+ "image/png" +:+ ";base64," +:+ encoded) /\
    Base64.b64decode encoded = Some (file_bytes Sample.png_upload).
Proof.
  apply (image_payload_roundtrip (pdf_library := Sample.five_page_pdf)
           Sample.png_upload "s1" "image/png" Sample.world0).
  - reflexivity.
  - reflexivity.
Defined.

Example png_payload :
  image_to_base64 Sample.png_bytes "image/png" = "data:image/png;base64,iVBORw0KGgo=".
Proof. reflexivity. Qed.

Example b64encode_examples :
  Base64.b64encode [x4d] = "TQ==" /\
  Base64.b64encode [x4d; x61] = "TWE=" /\
  Base64.b64encode [x4d; x61; x6e] = "TWFu" /\
  Base64.b64encode [xff; xfe; xfd; xfc] = "//79/A==".
Proof. repeat split. Qed.

(** ** The streaming phase *)

Lemma str_concat_cons (s : string) (l : list string) :
  str_concat (s :: l) = s +:+ str_concat l.
Proof. reflexivity. Qed.

Lemma str_concat_truthy (l : list string) :
  str_concat (List.filter str_truthy l) = str_concat l.
Proof.
  induction l as [|s l IH]; [reflexivity|].
  cbn [List.filter]. destruct s as [|c s].
  - cbn [str_truthy]. now rewrite str_concat_cons, append_empty_l.
  - cbn [str_truthy]. now rewrite !str_concat_cons, IH.
Qed.

Lemma with_sent_nil (w : world) : with_sent w [] = w.
Proof. destruct w. unfold with_sent. cbn. now rewrite app_nil_r. Qed.

(** A stream all of whose chunks have a choice is consumed to its end: the
    non-empty fragments are sent in order and all fragments accumulated. *)
Lemma relay_chunks_consumed (stream : list chunk) :
  Forall (fun chunk => choices chunk <> []) stream ->
  forall (full : string) (w : world),
    relay_chunks stream full w =
    (Ok (full +:+ str_concat (fragments stream)),
     with_sent w (map send_text (List.filter str_truthy (fragments stream)))).
Proof.
  induction 1 as [|chunk stream Hne _ IH]; intros full w.
  - cbn. now rewrite append_empty_r, with_sent_nil.
  - cbn [relay_chunks fragments]. unfold bind at 1.
    destruct (choices chunk) as [|content rest]; [congruence|].
    cbn [head or_raise ret]. destruct content as [c|]; [|apply IH].
    destruct c as [|a c].
    + cbn [str_truthy List.filter]. rewrite IH.
      now rewrite str_concat_cons, append_empty_l.
    + cbn [str_truthy List.filter map]. unfold bind, emit. rewrite IH.
      rewrite str_concat_cons, append_assoc. f_equal.
      unfold with_sent. cbn. now rewrite <- app_assoc.
Qed.

(** Whatever the stream, relaying it only sends text frames. *)
Lemma relay_chunks_frame (stream : list chunk) :
  forall (full : string) (w : world),
  exists texts : list string,
    snd (relay_chunks stream full w) = with_sent w (map send_text texts).
Proof.
  induction stream as [|chunk stream IH]; intros full w.
  - exists []. cbn. now rewrite with_sent_nil.
  - cbn [relay_chunks]. unfold bind at 1.
    destruct (head (choices chunk)) as [content|]; cbn [or_raise ret raise].
    2:{ exists []. cbn. now rewrite with_sent_nil. }
    destruct content as [c|]; [|apply IH].
    destruct (str_truthy c); [|apply IH].
    unfold bind, emit.
    destruct (IH (full +:+ c) (with_sent w [send_text c])) as [texts Ht].
    exists (c :: texts). unfold with_sent at 1 in Ht. cbn in Ht.
    destruct (relay_chunks stream (full +:+ c) _) as [[r|e] w'] eqn:E;
      cbn [snd] in *; rewrite Ht; unfold with_sent; cbn; now rewrite <- app_assoc.
Qed.

(** When relaying returns, it returns all fragments accumulated. *)
Lemma relay_chunks_returns (stream : list chunk) :
  forall (full r : string) (w w' : world),
    relay_chunks stream full w = (Ok r, w') ->
    r = full +:+ str_concat (fragments stream).
Proof.
  induction stream as [|chunk stream IH]; intros full r w w'.
  - cbn. intros [= <- _]. now rewrite append_empty_r.
  - cbn [relay_chunks fragments]. unfold bind at 1.
    destruct (head (choices chunk)) as [content|]; cbn [or_raise ret raise];
      [|discriminate].
    destruct content as [c|]; [|apply IH].
    destruct c as [|a c]; cbn [str_truthy].
    + intros H. apply IH in H. now rewrite str_concat_cons, append_empty_l.
    + unfold bind, emit. intros H. apply IH in H.
      now rewrite str_concat_cons, <- append_assoc.
Qed.

Lemma text_fragments_filter (stream : list chunk) :
  text_fragments stream = List.filter str_truthy (fragments stream).
Proof.
  induction stream as [|chunk stream IH]; [reflexivity|].
  cbn [text_fragments fragments].
  destruct (head (choices chunk)) as [[[|a c]|]|]; cbn [List.filter str_truthy];
    now rewrite IH.
Qed.

Lemma send_text_inj (l1 l2 : list string) :
  map send_text l1 = map send_text l2 -> l1 = l2.
Proof.
  revert l2. induction l1 as [|x l1 IH]; intros [|y l2] H; try discriminate H.
  - reflexivity.
  - cbn [map] in H. injection H as -> H. f_equal. now apply IH.
Qed.

(** C3. When a stream is consumed to its end, the texts sent to the client
    are exactly the text fragments that the stream produced, in the same
    order, none dropped and none sent twice: whatever list of texts was
    sent, it is the list of the fragments, and so its concatenation is the
    concatenation of the fragments, which is also the accumulated
    response. *)
Theorem relayed_fragments (stream : list chunk) (w : world) :
  Forall (fun chunk => choices chunk <> []) stream ->
  let w' := snd (relay_chunks stream "" w) in
  sent w' = sent w ++ map send_text (text_fragments stream) /\
  (forall forwarded : list string,
     sent w' = sent w ++ map send_text forwarded ->
     forwarded = text_fragments stream /\
     str_concat forwarded = str_concat (text_fragments stream)) /\
  fst (relay_chunks stream "" w) = Ok (str_concat (text_fragments stream)).
Proof.
  intros Hall w'. subst w'.
  rewrite (relay_chunks_consumed stream Hall "" w), <- text_fragments_filter.
  cbn [fst snd with_sent sent]. split; [reflexivity|]. split.
  - intros forwarded Hsent. apply app_inv_head in Hsent.
    apply send_text_inj in Hsent. now subst forwarded.
  - rewrite text_fragments_filter, str_concat_truthy. reflexivity.
Qed.

Lemma relayed_fragments_witness :
  let w' := snd (relay_chunks Sample.hi_stream "" Sample.world0) in
  sent w' = sent Sample.world0 ++ map send_text (text_fragments Sample.hi_stream) /\
  (forall forwarded : list string,
     sent w' = sent Sample.world0 ++ map send_text forwarded ->
     forwarded = text_fragments Sample.hi_stream /\
     str_concat forwarded = str_concat (text_fragments Sample.hi_stream)) /\
  fst (relay_chunks Sample.hi_stream "" Sample.world0)
    = Ok (str_concat (text_fragments Sample.hi_stream)).
Proof.
  apply (relayed_fragments Sample.hi_stream Sample.world0).
  repeat constructor; discriminate.
Defined.

(** The stream of four chunks, of which the first has empty content and
    the last none: two fragments of text, both sent. *)
Example hi_stream_relayed :
  text_fragments Sample.hi_stream = ["Hi"; " there"] /\
  relay_chunks Sample.hi_stream "" Sample.world0
    = (Ok "Hi there",
       with_sent Sample.world0 [send_text "Hi"; send_text " there"]).
Proof. split; reflexivity. Qed.

(** ** One turn of the relay loop *)

Section RelayFacts.

Context {json_library : JsonLibrary} {completion_api : CompletionApi}.

(** Step 1 on a text that is a JSON object: the pending entry is popped. *)
Lemma read_payload_object (session_id raw_data : string)
  (items : list (string * json)) (w : world) :
  json_loads raw_data = Some (JObj items) ->
  read_payload session_id raw_data w =
  (Ok (match items_lookup "text" items with Some v => v | None => JStr "" end,
       uploaded_data_store w !! session_id),
   {| uploaded_data_store := delete session_id (uploaded_data_store w);
      chat_history := chat_history w; sent := sent w; requests := requests w |}).
Proof.
  intros Hj. unfold read_payload. run_handlers. rewrite Hj. reflexivity.
Qed.

(** Step 1 on a text that is not JSON: plain text, and the store is not
    read. *)
Lemma read_payload_not_json (session_id raw_data : string) (w : world) :
  json_loads raw_data = None ->
  read_payload session_id raw_data w = (Ok (JStr raw_data, None), w).
Proof.
  intros Hj. unfold read_payload. run_handlers. rewrite Hj. reflexivity.
Qed.

(** Step 1 on JSON that is not an object: [.get] raises. *)
Lemma read_payload_not_object (session_id raw_data : string) (v : json) (w : world) :
  json_loads raw_data = Some v ->
  (forall items, v <> JObj items) ->
  read_payload session_id raw_data w = (Raise AttributeError, w).
Proof.
  intros Hj Hv. unfold read_payload. run_handlers. rewrite Hj.
  destruct v; try reflexivity. now destruct (Hv items).
Qed.

(** Step 2 leaves the world as it is. *)
Lemma build_message_content_pure (user_message : json)
  (file_content_data : option string) (w : world) :
  snd (build_message_content user_message file_content_data w) = w.
Proof.
  unfold build_message_content.
  destruct file_content_data as [data|]; [destruct (str_truthy data)|].
  - destruct (startswith "data:image/" data); [reflexivity|].
    unfold bind, str_add. destruct user_message; reflexivity.
  - destruct (truthy user_message); reflexivity.
  - destruct (truthy user_message); reflexivity.
Qed.

(** Steps 2 to 6, case by case. The store is never touched; the history
    grows by the user entry once the content is not empty, and by the
    assistant entry when the accumulated response is not empty. *)
Lemma respond_cases (user_message : json) (file_content_data : option string)
  (w : world) :
  let w' := snd (respond user_message file_content_data w) in
  uploaded_data_store w' = uploaded_data_store w /\
  match fst (respond user_message file_content_data w) with
  | Ok Skipped =>
      w' = w /\
      fst (build_message_content user_message file_content_data w) = Ok []
  | Ok (Streamed full) =>
      exists message_content stream,
        message_content <> [] /\
        fst (build_message_content user_message file_content_data w)
          = Ok message_content /\
        completions_create (chat_history w ++ [user_entry message_content])
          = Some stream /\
        full = str_concat (fragments stream) /\
        requests w' = requests w ++ [chat_history w ++ [user_entry message_content]] /\
        chat_history w' =
          chat_history w ++ user_entry message_content ::
            (if str_truthy full then [assistant_entry full] else [])
  | Raise e =>
      chat_history w' = chat_history w \/
      exists message_content,
        chat_history w' = chat_history w ++ [user_entry message_content]
  end.
Proof.
  cbv zeta.
  destruct (respond user_message file_content_data w) as [r w'] eqn:Hresp.
  cbn [fst snd].
  unfold respond in Hresp. unfold bind at 1 in Hresp.
  pose proof (build_message_content_pure user_message file_content_data w) as Hpure.
  destruct (build_message_content user_message file_content_data w)
    as [[message_content|e] w0] eqn:Hbuild; cbn [snd fst] in *; subst w0.
  2:{ injection Hresp as <- <-. split; [reflexivity | now left]. }
  destruct message_content as [|p message_content].
  { injection Hresp as <- <-. auto. }
  set (mc := p :: message_content) in *.
  unfold bind at 1 in Hresp. unfold history_append at 1 in Hresp.
  unfold bind at 1 in Hresp. unfold request_stream at 1 in Hresp.
  cbn [chat_history requests] in Hresp.
  destruct (completions_create (chat_history w ++ [user_entry mc])) as [stream|] eqn:Hup.
  2:{ injection Hresp as <- <-. cbn. split; [reflexivity|]. right. now exists mc. }
  unfold bind at 1 in Hresp.
  cbn [uploaded_data_store sent] in Hresp.
  match type of Hresp with context [relay_chunks stream "" ?x] => set (w2 := x) in * end.
  pose proof (relay_chunks_frame stream "" w2) as [texts Hframe].
  destruct (relay_chunks stream "" w2) as [[full|e] w3] eqn:Hrelay;
    cbn [snd] in Hframe; subst w3.
  2:{ injection Hresp as <- <-. cbn. split; [reflexivity|]. right. now exists mc. }
  apply relay_chunks_returns in Hrelay. rewrite append_empty_l in Hrelay.
  unfold bind at 1 in Hresp.
  destruct (str_truthy full) eqn:Hfull.
  - injection Hresp as <- <-. cbn. split; [reflexivity|]. exists mc, stream.
    rewrite Hfull. repeat split; auto; try discriminate.
    now rewrite <- app_assoc.
  - injection Hresp as <- <-. cbn. split; [reflexivity|]. exists mc, stream.
    rewrite Hfull. repeat split; auto; discriminate.
Qed.

Lemma loop_body_object (session_id raw_data : string)
  (items : list (string * json)) (w : world) :
  json_loads raw_data = Some (JObj items) ->
  loop_body session_id raw_data w =
  respond (match items_lookup "text" items with Some v => v | None => JStr "" end)
    (uploaded_data_store w !! session_id)
    {| uploaded_data_store := delete session_id (uploaded_data_store w);
       chat_history := chat_history w; sent := sent w; requests := requests w |}.
Proof.
  intros Hj. unfold loop_body, bind.
  now rewrite (read_payload_object session_id raw_data items w Hj).
Qed.

Lemma loop_body_not_json (session_id raw_data : string) (w : world) :
  json_loads raw_data = None ->
  loop_body session_id raw_data w = respond (JStr raw_data) None w.
Proof.
  intros Hj. unfold loop_body, bind.
  now rewrite (read_payload_not_json session_id raw_data w Hj).
Qed.

Lemma loop_body_not_object (session_id raw_data : string) (v : json) (w : world) :
  json_loads raw_data = Some v ->
  (forall items, v <> JObj items) ->
  loop_body session_id raw_data w = (Raise AttributeError, w).
Proof.
  intros Hj Hv. unfold loop_body, bind.
  now rewrite (read_payload_not_object session_id raw_data v w Hj Hv).
Qed.

(** A turn, case by case, in terms of the history before it. *)
Lemma loop_body_history (session_id raw_data : string) (w : world) :
  let w' := snd (loop_body session_id raw_data w) in
  match fst (loop_body session_id raw_data w) with
  | Ok Skipped =>
      chat_history w' = chat_history w /\ requests w' = requests w /\ sent w' = sent w
  | Ok (Streamed full) =>
      exists message_content stream,
        completions_create (chat_history w ++ [user_entry message_content])
          = Some stream /\
        full = str_concat (fragments stream) /\
        requests w' = requests w ++ [chat_history w ++ [user_entry message_content]] /\
        chat_history w' =
          chat_history w ++ user_entry message_content ::
            (if str_truthy full then [assistant_entry full] else [])
  | Raise e =>
      chat_history w' = chat_history w \/
      exists message_content,
        chat_history w' = chat_history w ++ [user_entry message_content]
  end.
Proof.
  assert (forall um fcd w1,
    chat_history w1 = chat_history w -> requests w1 = requests w -> sent w1 = sent w ->
    let w' := snd (respond um fcd w1) in
    match fst (respond um fcd w1) with
    | Ok Skipped =>
        chat_history w' = chat_history w /\ requests w' = requests w /\ sent w' = sent w
    | Ok (Streamed full) =>
        exists message_content stream,
          completions_create (chat_history w ++ [user_entry message_content])
            = Some stream /\
          full = str_concat (fragments stream) /\
          requests w' = requests w ++ [chat_history w ++ [user_entry message_content]] /\
          chat_history w' =
            chat_history w ++ user_entry message_content ::
              (if str_truthy full then [assistant_entry full] else [])
    | Raise e =>
        chat_history w' = chat_history w \/
        exists message_content,
          chat_history w' = chat_history w ++ [user_entry message_content]
    end) as Hrespond.
  { intros um fcd w1 Hh Hr Hs.
    pose proof (respond_cases um fcd w1) as [_ Hcases]. cbv zeta.
    destruct (fst (respond um fcd w1)) as [[|full]|e].
    - destruct Hcases as [-> _]. auto.
    - destruct Hcases as (mc & stream & _ & _ & Hup & Hfull & Hreq & Hhist).
      exists mc, stream. rewrite <- Hh, <- Hr. auto.
    - rewrite <- Hh. exact Hcases. }
  destruct (json_loads raw_data) as [v|] eqn:Hj.
  - destruct v;
      try (rewrite (loop_body_not_object _ _ _ w Hj) by discriminate; cbn; now left).
    rewrite (loop_body_object _ _ _ w Hj). now apply Hrespond.
  - rewrite (loop_body_not_json _ _ w Hj). now apply Hrespond.
Qed.

(** C1, as the code has it. A turn whose text parses as a JSON object
    removes the pending entry of the session, whatever the turn then does
    (attach the file, skip, or fail); a turn whose text is not JSON is taken
    as plain text and leaves the store as it was. *)
Theorem pending_entry_consumed (session_id raw_data : string) (w : world) :
  (forall items,
     json_loads raw_data = Some (JObj items) ->
     uploaded_data_store (snd (loop_body session_id raw_data w)) !! session_id = None) /\
  (json_loads raw_data = None ->
   uploaded_data_store (snd (loop_body session_id raw_data w)) = uploaded_data_store w).
Proof.
  split.
  - intros items Hj. rewrite (loop_body_object _ _ _ w Hj).
    match goal with |- context [respond ?um ?fcd ?w1] =>
      pose proof (respond_cases um fcd w1) as [Hstore _] end.
    cbv zeta in Hstore. rewrite Hstore. cbn. apply lookup_delete_eq.
  - intros Hj. rewrite (loop_body_not_json _ _ w Hj).
    pose proof (respond_cases (JStr raw_data) None w) as [Hstore _]. exact Hstore.
Qed.

(** C8. A turn whose user text is empty, for a session with no pending
    payload, ends at [continue]: no request is made upstream, nothing is
    sent, and the history and the store are what they were. *)
Theorem empty_turn_is_noop (session_id raw_data : string)
  (file_content_data : option string) (w : world) :
  fst (read_payload session_id raw_data w) = Ok (JStr "", file_content_data) ->
  uploaded_data_store w !! session_id = None ->
  loop_body session_id raw_data w = (Ok Skipped, w) /\
  requests (snd (loop_body session_id raw_data w)) = requests w /\
  chat_history (snd (loop_body session_id raw_data w)) = chat_history w /\
  uploaded_data_store (snd (loop_body session_id raw_data w)) = uploaded_data_store w.
Proof.
  intros Hread Habsent.
  assert (loop_body session_id raw_data w = (Ok Skipped, w)) as ->.
  2:{ auto. }
  destruct (json_loads raw_data) as [v|] eqn:Hj.
  - destruct v;
      try (rewrite (read_payload_not_object _ _ _ w Hj) in Hread by discriminate;
           discriminate Hread).
    rewrite (read_payload_object _ _ _ w Hj) in Hread. cbn [fst] in Hread.
    injection Hread as Hum Hfcd.
    rewrite (loop_body_object _ _ _ w Hj), Hum, Habsent.
    cbn. rewrite (delete_id _ _ Habsent). now destruct w.
  - rewrite (read_payload_not_json _ _ w Hj) in Hread. cbn [fst] in Hread.
    injection Hread as Hraw _.
    rewrite (loop_body_not_json _ _ w Hj), Hraw. reflexivity.
Qed.

(** C9. When a turn completes with a non-empty accumulated response, the
    history is the old history followed by one user entry and one assistant
    entry holding that response: two entries longer. And whenever a
    completed turn has appended an assistant entry, its accumulated response
    was not empty. *)
Theorem turn_appends_two_entries (session_id raw_data full : string) (w : world) :
  fst (loop_body session_id raw_data w) = Ok (Streamed full) ->
  let w' := snd (loop_body session_id raw_data w) in
  (full <> "" ->
   (exists message_content,
      chat_history w' =
        chat_history w ++ [user_entry message_content; assistant_entry full]) /\
   length (chat_history w') = length (chat_history w) + 2) /\
  (forall added,
     chat_history w' = chat_history w ++ added ->
     Exists (fun m => msg_role m = assistant) added ->
     full <> "").
Proof.
  intros Hdone w'.
  pose proof (loop_body_history session_id raw_data w) as Hcases.
  cbv zeta in Hcases. rewrite Hdone in Hcases. fold w' in Hcases.
  destruct Hcases as (mc & stream & _ & _ & _ & Hhist).
  split.
  - intros Hfull. apply str_truthy_true in Hfull. rewrite Hfull in Hhist.
    split; [now exists mc|]. rewrite Hhist, length_app. cbn. lia.
  - intros added Hadded Hex Hempty. subst full. cbn [str_truthy] in Hhist.
    rewrite Hhist in Hadded. apply app_inv_head in Hadded. subst added.
    apply Exists_cons in Hex as [Hrole|Hex]; [discriminate Hrole|].
    now apply Exists_nil in Hex.
Qed.

(** C10. When a turn completes with an empty accumulated response, the
    user entry stays: the history is the old one followed by that single
    user entry, one entry longer. After a second such turn the history ends
    in two user entries with no assistant entry between them. *)
Theorem empty_response_keeps_user_entry (session_id raw_data : string) (w : world) :
  fst (loop_body session_id raw_data w) = Ok (Streamed "") ->
  let w1 := snd (loop_body session_id raw_data w) in
  ((exists message_content,
      chat_history w1 = chat_history w ++ [user_entry message_content]) /\
   length (chat_history w1) = length (chat_history w) + 1) /\
  (forall raw_data',
     fst (loop_body session_id raw_data' w1) = Ok (Streamed "") ->
     exists message_content message_content',
       chat_history (snd (loop_body session_id raw_data' w1)) =
         chat_history w ++ [user_entry message_content; user_entry message_content']).
Proof.
  intros Hdone w1.
  pose proof (loop_body_history session_id raw_data w) as Hcases.
  cbv zeta in Hcases. rewrite Hdone in Hcases. fold w1 in Hcases.
  destruct Hcases as (mc & stream & _ & _ & _ & Hhist). cbn [str_truthy] in Hhist.
  split.
  - split; [now exists mc|]. rewrite Hhist, length_app. cbn. lia.
  - intros raw_data' Hdone'.
    pose proof (loop_body_history session_id raw_data' w1) as Hcases.
    cbv zeta in Hcases. rewrite Hdone' in Hcases.
    destruct Hcases as (mc' & stream' & _ & _ & _ & Hhist').
    cbn [str_truthy] in Hhist'. exists mc, mc'.
    rewrite Hhist', Hhist, <- app_assoc. reflexivity.
Qed.

(** *** The loop and the endpoint *)

Lemma loop_body_history_grows (session_id raw_data : string) (w : world) :
  exists added,
    chat_history (snd (loop_body session_id raw_data w)) = chat_history w ++ added.
Proof.
  pose proof (loop_body_history session_id raw_data w) as Hcases. cbv zeta in Hcases.
  destruct (fst (loop_body session_id raw_data w)) as [[|full]|e].
  - destruct Hcases as (Hhist & _). exists []. now rewrite app_nil_r.
  - destruct Hcases as (mc & stream & _ & _ & _ & Hhist). eauto.
  - destruct Hcases as [Hhist|[mc Hhist]]; [|eauto].
    exists []. now rewrite app_nil_r.
Qed.

(** The history only grows over the turns of a connection. *)
Lemma relay_loop_history_grows (session_id : string) (incoming : list string) :
  forall w : world,
  exists added,
    chat_history (snd (relay_loop session_id incoming w)) = chat_history w ++ added.
Proof.
  induction incoming as [|raw_data incoming IH]; intros w.
  - exists []. cbn. now rewrite app_nil_r.
  - cbn [relay_loop]. unfold bind.
    destruct (loop_body_history_grows session_id raw_data w) as [added1 H1].
    destruct (loop_body session_id raw_data w) as [[r|e] w1]; cbn [snd] in *.
    + destruct (IH w1) as [added2 H2]. exists (added1 ++ added2).
      now rewrite H2, H1, app_assoc.
    + now exists added1.
Qed.

(** X26. The first entry of the history of a connection is the system
    directive, however the connection ends. *)
Lemma endpoint_history_starts_with_directive
  (session_id : string) (incoming : list string) (w : world) :
  str_truthy session_id = true ->
  head (chat_history (snd (websocket_endpoint (Some session_id) incoming w)))
  = Some system_directive.
Proof.
  intros Hsid. unfold websocket_endpoint. rewrite Hsid.
  unfold bind, history_init, try_except.
  match goal with |- context [relay_loop session_id incoming ?x] => set (w1 := x) end.
  destruct (relay_loop_history_grows session_id incoming w1) as [added Hhist].
  destruct (relay_loop session_id incoming w1) as [[r|e] w2]; cbn [snd] in Hhist.
  - cbn [snd]. now rewrite Hhist.
  - destruct e; cbn; now rewrite Hhist.
Qed.

End RelayFacts.

(** *** Worked turns *)

(** The session [s1] has an image pending. The object with text [hello]
    consumes it; the bare word [hello], which is not JSON, leaves it. *)
Lemma pending_entry_consumed_witness :
  uploaded_data_store
    (snd (loop_body (json_library := Sample.three_texts)
            (completion_api := Sample.answers_hi)
            "s1" (Sample.text_object "hello") Sample.world_pending)) !! "s1" = None /\
  uploaded_data_store
    (snd (loop_body (json_library := Sample.three_texts)
            (completion_api := Sample.answers_hi)
            "s1" "hello" Sample.world_pending))
    = uploaded_data_store Sample.world_pending.
Proof.
  split.
  - apply (proj1 (pending_entry_consumed (json_library := Sample.three_texts)
                    (completion_api := Sample.answers_hi)
                    "s1" (Sample.text_object "hello") Sample.world_pending)
             [("text", JStr "hello")]).
    reflexivity.
  - apply (proj2 (pending_entry_consumed (json_library := Sample.three_texts)
                    (completion_api := Sample.answers_hi)
                    "s1" "hello" Sample.world_pending)).
    reflexivity.
Defined.

(** C1, as stated, fails on a turn whose text is not JSON: the turn is
    processed to its end, as plain text, and the pending entry of the
    session is still in the store. *)
Lemma parse_failure_keeps_pending_entry :
  json_loads (JsonLibrary := Sample.three_texts) "hello" = None /\
  fst (loop_body (json_library := Sample.three_texts)
         (completion_api := Sample.answers_hi)
         "s1" "hello" Sample.world_pending) = Ok (Streamed "Hi there") /\
  uploaded_data_store
    (snd (loop_body (json_library := Sample.three_texts)
            (completion_api := Sample.answers_hi)
            "s1" "hello" Sample.world_pending)) !! "s1"
    = Some "data:image/png;base64,iVBORw0KGgo=" /\
  uploaded_data_store
    (snd (loop_body (json_library := Sample.three_texts)
            (completion_api := Sample.answers_hi)
            "s1" "hello" Sample.world_pending)) !! "s1" <> None.
Proof.
  split; [reflexivity|]. split; [reflexivity|].
  assert (uploaded_data_store
            (snd (loop_body (json_library := Sample.three_texts)
                    (completion_api := Sample.answers_hi)
                    "s1" "hello" Sample.world_pending)) !! "s1"
          = Some "data:image/png;base64,iVBORw0KGgo=") as H by (vm_compute; reflexivity).
  split; [exact H|]. rewrite H. discriminate.
Qed.

(** An object with empty text, on a fresh connection. *)
Lemma empty_turn_is_noop_witness :
  loop_body (json_library := Sample.three_texts) (completion_api := Sample.answers_hi)
    "s1" (Sample.text_object "") Sample.world0 = (Ok Skipped, Sample.world0) /\
  requests (snd (loop_body (json_library := Sample.three_texts)
                   (completion_api := Sample.answers_hi)
                   "s1" (Sample.text_object "") Sample.world0))
    = requests Sample.world0 /\
  chat_history (snd (loop_body (json_library := Sample.three_texts)
                       (completion_api := Sample.answers_hi)
                       "s1" (Sample.text_object "") Sample.world0))
    = chat_history Sample.world0 /\
  uploaded_data_store (snd (loop_body (json_library := Sample.three_texts)
                              (completion_api := Sample.answers_hi)
                              "s1" (Sample.text_object "") Sample.world0))
    = uploaded_data_store Sample.world0.
Proof.
  apply (empty_turn_is_noop (json_library := Sample.three_texts)
           (completion_api := Sample.answers_hi)
           "s1" (Sample.text_object "") None Sample.world0).
  - reflexivity.
  - reflexivity.
Defined.

(** The text [hello] answered by [Hi there]. *)
Lemma turn_appends_two_entries_witness :
  let w' := snd (loop_body (json_library := Sample.three_texts)
                   (completion_api := Sample.answers_hi)
                   "s1" (Sample.text_object "hello") Sample.world0) in
  ("Hi there" <> "" ->
   (exists message_content,
      chat_history w' =
        chat_history Sample.world0
          ++ [user_entry message_content; assistant_entry "Hi there"]) /\
   length (chat_history w') = length (chat_history Sample.world0) + 2) /\
  (forall added,
     chat_history w' = chat_history Sample.world0 ++ added ->
     Exists (fun m => msg_role m = assistant) added ->
     "Hi there" <> "").
Proof.
  apply (turn_appends_two_entries (json_library := Sample.three_texts)
           (completion_api := Sample.answers_hi)
           "s1" (Sample.text_object "hello") "Hi there" Sample.world0).
  reflexivity.
Defined.

Example hello_turn_history :
  chat_history
    (snd (loop_body (json_library := Sample.three_texts)
            (completion_api := Sample.answers_hi)
            "s1" (Sample.text_object "hello") Sample.world0))
  = [system_directive;
     user_entry [text_part (JStr "hello")];
     assistant_entry "Hi there"].
Proof. reflexivity. Qed.

(** Two turns answered by a stream without text. *)
Lemma empty_response_keeps_user_entry_witness :
  let w1 := snd (loop_body (json_library := Sample.three_texts)
                   (completion_api := Sample.answers_nothing)
                   "s1" "hello" Sample.world0) in
  ((exists message_content,
      chat_history w1 = chat_history Sample.world0 ++ [user_entry message_content]) /\
   length (chat_history w1) = length (chat_history Sample.world0) + 1) /\
  (exists message_content message_content',
     chat_history
       (snd (loop_body (json_library := Sample.three_texts)
               (completion_api := Sample.answers_nothing)
               "s1" (Sample.text_object "hello") w1)) =
     chat_history Sample.world0
       ++ [user_entry message_content; user_entry message_content']).
Proof.
  pose proof (empty_response_keeps_user_entry (json_library := Sample.three_texts)
                (completion_api := Sample.answers_nothing)
                "s1" "hello" Sample.world0 eq_refl) as [Hone Htwo].
  split; [exact Hone|].
  apply (Htwo (Sample.text_object "hello")). reflexivity.
Defined.

Example two_user_entries_in_a_row :
  let w1 := snd (loop_body (json_library := Sample.three_texts)
                   (completion_api := Sample.answers_nothing)
                   "s1" "hello" Sample.world0) in
  chat_history
    (snd (loop_body (json_library := Sample.three_texts)
            (completion_api := Sample.answers_nothing)
            "s1" (Sample.text_object "hello") w1))
  = [system_directive;
     user_entry [text_part (JStr "hello")];
     user_entry [text_part (JStr "hello")]].
Proof. reflexivity. Qed.

(* ===================================================================== *)
(** * Further properties of the file processing *)
(* ===================================================================== *)

(** ** Base64 text *)

Section Base64Text.
Import Base64.

Ltac sextet_bound := zify; Z.to_euclidean_division_equations; lia.

Ltac split_chars :=
  repeat match goal with
         | |- Forall _ (_ :: _) => constructor
         | |- Forall _ [] => constructor
         end.

(** The encoding of [n] bytes has [4 * ceil(n / 3)] characters: always a
    multiple of four, padding included. *)
Lemma b64encode_length (bs : list byte) :
  String.length (b64encode bs) = 4 * ((length bs + 2) / 3).
Proof.
  induction bs as [|a|a b|a b c rest IH] using list_triples_ind;
    try reflexivity.
  rewrite b64encode_triple. cbv zeta. cbn [String.length length].
  rewrite IH.
  replace (S (S (S (length rest))) + 2) with (1 * 3 + (length rest + 2)) by lia.
  rewrite Nat.div_add_l by lia. lia.
Qed.

Lemma char_of_ok (n : N) : (n < 64)%N -> b64_char_ok (char_of n).
Proof. intros H. right. rewrite index_of_char_of by exact H. eauto. Qed.

(** Every character of an encoding is a character of the base64 alphabet
    or the padding character. *)
Lemma b64encode_alphabet (bs : list byte) :
  Forall b64_char_ok (list_ascii_of_string (b64encode bs)).
Proof.
  induction bs as [|a|a b|a b c rest IH] using list_triples_ind.
  - constructor.
  - pose proof (byte_lt_256 a).
    cbn [b64encode list_ascii_of_string].
    split_chars; try (now left); apply char_of_ok; sextet_bound.
  - pose proof (byte_lt_256 a). pose proof (byte_lt_256 b).
    cbn [b64encode list_ascii_of_string].
    split_chars; try (now left); apply char_of_ok; sextet_bound.
  - pose proof (byte_lt_256 a). pose proof (byte_lt_256 b).
    pose proof (byte_lt_256 c).
    rewrite b64encode_triple. cbv zeta. cbn [list_ascii_of_string].
    split_chars; try exact IH; apply char_of_ok; sextet_bound.
Qed.

End Base64Text.

Lemma append_length (s t : string) :
  String.length (s +:+ t) = String.length s + String.length t.
Proof.
  induction s as [|c s IH]; [reflexivity|].
  rewrite append_cons. cbn [String.length]. now rewrite IH.
Qed.

(** X1. No cap is put on an image: the data URI of a file of [n] bytes
    declared with type [mime_type] has [13 + len(mime_type) + 4 * ceil(n / 3)]
    characters, a third more than the file. *)
Theorem data_uri_length (file_bytes : list byte) (mime_type : string) :
  String.length (image_to_base64 file_bytes mime_type)
  = 13 + String.length mime_type + 4 * ((length file_bytes + 2) / 3).
Proof.
  unfold image_to_base64. rewrite !append_length, b64encode_length.
  cbn [String.length]. lia.
Qed.

(** X2. After its prefix [data:<mime_type>;base64,] a data URI holds
    nothing but characters of the base64 alphabet and the padding
    character, whatever the bytes of the file. *)
Theorem data_uri_alphabet (file_bytes : list byte) (mime_type : string) :
  exists encoded : string,
    image_to_base64 file_bytes mime_type
      = "data:" +:+ mime_type +:+ ";base64," +:+ encoded /\
    Forall b64_char_ok (list_ascii_of_string encoded).
Proof.
  exists (Base64.b64encode file_bytes).
  split; [reflexivity | apply b64encode_alphabet].
Qed.

(** X3. Two different files declared with the same type never get the same
    data URI. *)
Theorem image_to_base64_distinct (b1 b2 : list byte) (mime_type : string) :
  b1 <> b2 ->
  image_to_base64 b1 mime_type <> image_to_base64 b2 mime_type.
Proof.
  intros Hne Heq. apply Hne. unfold image_to_base64 in Heq.
  do 3 apply String.app_inj in Heq.
  apply (f_equal Base64.b64decode) in Heq.
  rewrite !b64decode_b64encode in Heq. now injection Heq.
Qed.

Lemma image_to_base64_distinct_witness :
  image_to_base64 Sample.png_bytes "image/png"
  <> image_to_base64 Sample.pdf_bytes "image/png".
Proof.
  apply (image_to_base64_distinct Sample.png_bytes Sample.pdf_bytes "image/png").
  discriminate.
Defined.

(** ** Text extraction *)

Lemma str_take_all (n : nat) (s : string) :
  String.length s <= n -> str_take n s = s.
Proof.
  unfold str_take. revert s.
  induction n as [|n IH]; intros [|c s]; cbn [String.length substring];
    intros H; try reflexivity; try lia.
  f_equal. apply IH. lia.
Qed.

Lemma str_take_prefix (n : nat) (s : string) :
  exists rest, s = str_take n s +:+ rest.
Proof.
  unfold str_take. revert s.
  induction n as [|n IH]; intros [|c s]; cbn [substring].
  - now exists "".
  - now exists (String c s).
  - now exists "".
  - destruct (IH s) as [rest Hrest]. exists rest.
    rewrite append_cons. now f_equal.
Qed.

Section ExtractionFacts.

Context {pdf_library : PdfLibrary}.

Lemma extract_pages_texts (doc : list page) (texts : list string) :
  Forall2 (fun p t => get_text p = Some t) doc texts ->
  forall text, extract_pages doc text = Some (text +:+ str_concat texts).
Proof.
  induction 1 as [|p t doc texts Hp _ IH]; intros text.
  - cbn. now rewrite append_empty_r.
  - cbn [extract_pages]. rewrite Hp, IH, str_concat_cons.
    now rewrite append_assoc.
Qed.

Lemma extract_pages_failure (doc : list page) :
  Exists (fun p => get_text p = None) doc ->
  forall text, extract_pages doc text = None.
Proof.
  induction 1 as [p doc Hp|p doc _ IH]; intros text; cbn [extract_pages].
  - now rewrite Hp.
  - destruct (get_text p); [apply IH | reflexivity].
Qed.

(** X4. When every page gives its text, the extracted text is the page
    texts joined in page order, with nothing between them. *)
Theorem extracted_joins_pages
  (file_bytes : list byte) (doc : list page) (texts : list string) :
  fitz_open file_bytes = Some doc ->
  Forall2 (fun p t => get_text p = Some t) doc texts ->
  extracted file_bytes = Some (str_concat texts) /\
  pdf_to_text file_bytes = str_take PDF_TEXT_LIMIT (str_concat texts).
Proof.
  intros Hopen Hpages.
  assert (extracted file_bytes = Some (str_concat texts)) as Hext.
  { unfold extracted. rewrite Hopen.
    now rewrite (extract_pages_texts doc texts Hpages ""). }
  split; [exact Hext|]. unfold pdf_to_text. now rewrite Hext.
Qed.

(** X5. When a single page raises, the text of every page is dropped: the
    result is the fallback text, not the text read so far. *)
Theorem page_failure_discards_all (file_bytes : list byte) (doc : list page) :
  fitz_open file_bytes = Some doc ->
  Exists (fun p => get_text p = None) doc ->
  pdf_to_text file_bytes = pdf_fallback.
Proof.
  intros Hopen Hfail. unfold pdf_to_text, extracted. rewrite Hopen.
  now rewrite (extract_pages_failure doc Hfail "").
Qed.

(** X6. A text of at most 15,000 characters is returned whole. *)
Theorem pdf_to_text_keeps_short_text (file_bytes : list byte) (text : string) :
  extracted file_bytes = Some text ->
  (Z.of_nat (String.length text) <= 15000)%Z ->
  pdf_to_text file_bytes = text.
Proof.
  intros Hext Hlen. unfold pdf_to_text. rewrite Hext.
  apply str_take_all. unfold PDF_TEXT_LIMIT. lia.
Qed.

(** X7. What [pdf_to_text] returns for a readable document is a prefix of
    the extracted text: the cap cuts the end off and changes nothing
    else. *)
Theorem pdf_to_text_is_prefix (file_bytes : list byte) (text : string) :
  extracted file_bytes = Some text ->
  exists rest, text = pdf_to_text file_bytes +:+ rest.
Proof.
  intros Hext. unfold pdf_to_text. rewrite Hext. apply str_take_prefix.
Qed.

End ExtractionFacts.

Lemma extracted_joins_pages_witness :
  extracted (pdf_library := Scenario.two_page_pdf) Sample.pdf_bytes
    = Some (str_concat ["Hb 13.5 g/dL. "; "WBC 6.1."]) /\
  pdf_to_text (pdf_library := Scenario.two_page_pdf) Sample.pdf_bytes
    = str_take PDF_TEXT_LIMIT (str_concat ["Hb 13.5 g/dL. "; "WBC 6.1."]).
Proof.
  apply (extracted_joins_pages (pdf_library := Scenario.two_page_pdf)
           Sample.pdf_bytes ["Hb 13.5 g/dL. "; "WBC 6.1."]).
  - reflexivity.
  - repeat constructor.
Defined.

Lemma page_failure_discards_all_witness :
  pdf_to_text (pdf_library := Scenario.second_page_fails) Sample.pdf_bytes
  = pdf_fallback.
Proof.
  apply (page_failure_discards_all (pdf_library := Scenario.second_page_fails)
           Sample.pdf_bytes ["Hb 13.5 g/dL. "; ""]).
  - reflexivity.
  - apply Exists_cons_tl. apply Exists_cons_hd. reflexivity.
Defined.

Lemma pdf_to_text_keeps_short_text_witness :
  pdf_to_text (pdf_library := Scenario.two_page_pdf) Sample.pdf_bytes
  = "Hb 13.5 g/dL. WBC 6.1.".
Proof.
  apply (pdf_to_text_keeps_short_text (pdf_library := Scenario.two_page_pdf)
           Sample.pdf_bytes "Hb 13.5 g/dL. WBC 6.1.").
  - reflexivity.
  - cbn. lia.
Defined.

Lemma pdf_to_text_is_prefix_witness :
  exists rest,
    Sample.str_repeat "a"%char (N.to_nat 20000)
    = pdf_to_text (pdf_library := Sample.five_page_pdf) Sample.pdf_bytes +:+ rest.
Proof.
  apply (pdf_to_text_is_prefix (pdf_library := Sample.five_page_pdf)
           Sample.pdf_bytes).
  exact five_pages_extracted.
Defined.

(** ** The upload endpoint and the store *)

Lemma prefix_append (p s t : string) :
  String.prefix p s = true -> String.prefix p (s +:+ t) = true.
Proof.
  revert s. induction p as [|c p IH]; intros s H.
  { now destruct (s +:+ t). }
  destruct s as [|d s]; [discriminate H|].
  rewrite append_cons. cbn [String.prefix] in *.
  destruct (ascii_dec c d); [now apply IH | discriminate H].
Qed.

Lemma data_uri_is_image (file_bytes : list byte) (mime_type : string) :
  startswith "image/" mime_type = true ->
  startswith "data:image/" (image_to_base64 file_bytes mime_type) = true.
Proof.
  intros H. unfold image_to_base64, startswith.
  change (String.prefix "image/"
            (mime_type +:+ ";base64," +:+ Base64.b64encode file_bytes) = true).
  now apply prefix_append.
Qed.

Lemma pdf_payload_is_text (text : string) :
  startswith "data:image/" (pdf_preamble +:+ text +:+ pdf_trailer) = false /\
  str_truthy (pdf_preamble +:+ text +:+ pdf_trailer) = true.
Proof. split; reflexivity. Qed.

(** The world once a payload is stored for a session. *)
Lemma with_stored_lookup (w : world) (session_id payload : string) :
  uploaded_data_store
    {| uploaded_data_store := <[session_id := payload]> (uploaded_data_store w);
       chat_history := chat_history w; sent := sent w; requests := requests w |}
    !! session_id = Some payload.
Proof. cbn. apply lookup_insert_eq. Qed.

Section UploadMore.

Context {pdf_library : PdfLibrary}.

(** The two ways an upload ends: it raises and the world is untouched, or
    it stores a payload under the session id and touches nothing else. *)
Lemma upload_file_outcome (file : upload_part) (session_id : string) (w : world) :
  (exists e,
     upload_file file session_id w = (Raise e, w) /\
     (e = AttributeError /\ content_type file = None \/
      e = HTTPException 400 "Unsupported file type.")) \/
  (exists response payload mime,
     content_type file = Some mime /\
     upload_file file session_id w =
       (Ok response,
        {| uploaded_data_store := <[session_id := payload]> (uploaded_data_store w);
           chat_history := chat_history w; sent := sent w;
           requests := requests w |}) /\
     resp_file_type response = mime /\
     resp_session_id response = session_id /\
     str_truthy payload = true /\
     startswith "data:image/" payload = startswith "image/" mime).
Proof.
  destruct (content_type file) as [mime|] eqn:Hct.
  2:{ left. exists AttributeError. split; [|now left].
      unfold upload_file. run_handlers. now rewrite Hct. }
  destruct (startswith "image/" mime) eqn:Himg.
  { right. do 3 eexists. split; [reflexivity|].
    split; [apply (upload_image_run file session_id mime w Hct Himg)|].
    cbn [resp_file_type resp_session_id]. repeat split.
    rewrite Himg. now apply data_uri_is_image. }
  destruct (String.eqb_spec mime "application/pdf") as [->|Hpdf].
  { right. do 3 eexists. split; [reflexivity|].
    split; [apply (upload_pdf_run file session_id w Hct)|].
    cbn [resp_file_type resp_session_id]. repeat split. }
  left. exists (HTTPException 400 "Unsupported file type."). split; [|now right].
  unfold upload_file. run_handlers. rewrite Hct. unfold process_upload.
  rewrite Himg. destruct (String.eqb_spec mime "application/pdf"); [contradiction|].
  reflexivity.
Qed.

(** X8. An upload that fails, for whatever reason, leaves the whole state
    as it was; it fails either because the part declares no content type
    (an [AttributeError], not a client error) or with the 400 rejection. *)
Theorem upload_failure_changes_nothing
  (file : upload_part) (session_id : string) (w : world) (e : exn) :
  fst (upload_file file session_id w) = Raise e ->
  snd (upload_file file session_id w) = w /\
  (e = AttributeError /\ content_type file = None \/
   e = HTTPException 400 "Unsupported file type.").
Proof.
  intros Hfail.
  destruct (upload_file_outcome file session_id w)
    as [(e' & Hrun & Hwhy)|(r & payload & mime & _ & Hrun & _)];
    rewrite Hrun in *; cbn [fst snd] in *; [|discriminate Hfail].
  injection Hfail as <-. auto.
Qed.

(** X9. An upload for one session never changes what is pending for
    another, nor any history, sent frame or upstream request. *)
Theorem upload_other_sessions_untouched
  (file : upload_part) (session_id other : string) (w : world) :
  other <> session_id ->
  let w' := snd (upload_file file session_id w) in
  uploaded_data_store w' !! other = uploaded_data_store w !! other /\
  chat_history w' = chat_history w /\
  sent w' = sent w /\
  requests w' = requests w.
Proof.
  intros Hne.
  destruct (upload_file_outcome file session_id w)
    as [(e & Hrun & _)|(r & payload & mime & _ & Hrun & _)];
    rewrite Hrun; cbn; auto.
  repeat split. now apply lookup_insert_ne.
Qed.

(** X10. A successful upload replaces whatever was pending for its
    session: after two uploads for a session the store is as if only the
    second had happened, and the first payload is gone. *)
Theorem upload_last_wins
  (first second : upload_part) (session_id : string) (w : world)
  (response : upload_response) :
  fst (upload_file second session_id (snd (upload_file first session_id w)))
    = Ok response ->
  uploaded_data_store
    (snd (upload_file second session_id (snd (upload_file first session_id w))))
  = uploaded_data_store (snd (upload_file second session_id w)).
Proof.
  intros Hok.
  destruct (upload_file_outcome first session_id w)
    as [(e & Hrun & _)|(r & payload & mime & _ & Hrun & _)];
    rewrite Hrun in *; cbn [snd] in *; [reflexivity|].
  set (w1 := {| uploaded_data_store := <[session_id := payload]> (uploaded_data_store w);
                chat_history := chat_history w; sent := sent w;
                requests := requests w |}) in *.
  destruct (content_type second) as [mime2|] eqn:Hct.
  2:{ exfalso. revert Hok. unfold upload_file. run_handlers.
      rewrite Hct. discriminate. }
  destruct (startswith "image/" mime2) eqn:Himg.
  { rewrite (upload_image_run second session_id mime2 w1 Hct Himg).
    rewrite (upload_image_run second session_id mime2 w Hct Himg).
    cbn. apply insert_insert_eq. }
  destruct (String.eqb_spec mime2 "application/pdf") as [->|Hpdf].
  { rewrite (upload_pdf_run second session_id w1 Hct).
    rewrite (upload_pdf_run second session_id w Hct).
    cbn. apply insert_insert_eq. }
  exfalso. revert Hok. unfold upload_file. run_handlers. rewrite Hct.
  unfold process_upload. rewrite Himg.
  destruct (String.eqb_spec mime2 "application/pdf"); [contradiction|].
  discriminate.
Qed.

(** X11. What a successful upload stores is never empty, and it starts
    with [data:image/] exactly when the upload was declared an image: the
    test by which the relay loop later tells an image from a document
    cannot take one for the other. *)
Theorem uploaded_payload_kind
  (file : upload_part) (session_id : string) (w : world)
  (response : upload_response) :
  fst (upload_file file session_id w) = Ok response ->
  exists payload mime,
    content_type file = Some mime /\
    uploaded_data_store (snd (upload_file file session_id w)) !! session_id
      = Some payload /\
    str_truthy payload = true /\
    startswith "data:image/" payload = startswith "image/" mime /\
    resp_file_type response = mime /\
    resp_session_id response = session_id.
Proof.
  intros Hok.
  destruct (upload_file_outcome file session_id w)
    as [(e & Hrun & _)|(r & payload & mime & Hct & Hrun & Hty & Hid & Hne & Hkind)];
    rewrite Hrun in *; cbn [fst snd] in *; [discriminate Hok|].
  injection Hok as <-. exists payload, mime.
  repeat split; auto. apply with_stored_lookup.
Qed.

End UploadMore.

Lemma upload_failure_changes_nothing_witness :
  snd (upload_file (pdf_library := Scenario.two_page_pdf)
         Scenario.untyped_upload "s1" Scenario.world_pdf_pending)
    = Scenario.world_pdf_pending /\
  (AttributeError = AttributeError /\ content_type Scenario.untyped_upload = None \/
   AttributeError = HTTPException 400 "Unsupported file type.").
Proof.
  apply (upload_failure_changes_nothing (pdf_library := Scenario.two_page_pdf)
           Scenario.untyped_upload "s1" Scenario.world_pdf_pending AttributeError).
  reflexivity.
Defined.

Lemma upload_other_sessions_untouched_witness :
  let w' := snd (upload_file (pdf_library := Scenario.two_page_pdf)
                   Sample.png_upload "s1" Scenario.world_pdf_pending) in
  uploaded_data_store w' !! "s2"
    = uploaded_data_store Scenario.world_pdf_pending !! "s2" /\
  chat_history w' = chat_history Scenario.world_pdf_pending /\
  sent w' = sent Scenario.world_pdf_pending /\
  requests w' = requests Scenario.world_pdf_pending.
Proof.
  apply (upload_other_sessions_untouched (pdf_library := Scenario.two_page_pdf)
           Sample.png_upload "s1" "s2" Scenario.world_pdf_pending).
  discriminate.
Defined.

Lemma upload_last_wins_witness :
  uploaded_data_store
    (snd (upload_file (pdf_library := Scenario.two_page_pdf)
            Scenario.jpeg_upload "s1"
            (snd (upload_file (pdf_library := Scenario.two_page_pdf)
                    Sample.pdf_upload "s1" Sample.world0))))
  = uploaded_data_store
      (snd (upload_file (pdf_library := Scenario.two_page_pdf)
              Scenario.jpeg_upload "s1" Sample.world0)).
Proof.
  eapply (upload_last_wins (pdf_library := Scenario.two_page_pdf)
            Sample.pdf_upload Scenario.jpeg_upload "s1" Sample.world0).
  reflexivity.
Defined.

Lemma uploaded_payload_kind_witness :
  exists payload mime,
    content_type Sample.pdf_upload = Some mime /\
    uploaded_data_store
      (snd (upload_file (pdf_library := Scenario.two_page_pdf)
              Sample.pdf_upload "s1" Sample.world0)) !! "s1" = Some payload /\
    str_truthy payload = true /\
    startswith "data:image/" payload = startswith "image/" mime /\
    resp_file_type
      {| resp_message := "Successfully uploaded and processed a PDF.";
         resp_file_type := "application/pdf";
         resp_session_id := "s1" |} = mime /\
    resp_session_id
      {| resp_message := "Successfully uploaded and processed a PDF.";
         resp_file_type := "application/pdf";
         resp_session_id := "s1" |} = "s1".
Proof.
  apply (uploaded_payload_kind (pdf_library := Scenario.two_page_pdf)
           Sample.pdf_upload "s1" Sample.world0).
  reflexivity.
Defined.

Example two_page_payload :
  uploaded_data_store
    (snd (upload_file (pdf_library := Scenario.two_page_pdf)
            Sample.pdf_upload "s1" Sample.world0)) !! "s1"
  = Some Scenario.pdf_payload.
Proof. reflexivity. Qed.

(* ===================================================================== *)
(** * Further properties of the relay loop *)
(* ===================================================================== *)

(** ** The stream *)

Lemma with_sent_cons (w : world) (f : frame) (frames : list frame) :
  with_sent (with_sent w [f]) frames = with_sent w (f :: frames).
Proof. unfold with_sent. cbn. now rewrite <- app_assoc. Qed.

(** One chunk of the stream. *)
Lemma relay_chunks_cons (c0 : chunk) (stream : list chunk)
  (full : string) (w : world) :
  relay_chunks (c0 :: stream) full w =
  match head (choices c0) with
  | None => (Raise IndexError, w)
  | Some None => relay_chunks stream full w
  | Some (Some c) =>
      if str_truthy c
      then relay_chunks stream (full +:+ c) (with_sent w [send_text c])
      else relay_chunks stream full w
  end.
Proof.
  cbn [relay_chunks]. unfold bind at 1.
  destruct (head (choices c0)) as [[c|]|]; cbn [or_raise ret raise];
    try reflexivity.
  destruct (str_truthy c); reflexivity.
Qed.

(** What relaying a stream comes to, whatever the stream: some non-empty
    texts are sent, and either all chunks had a choice and the texts are
    accumulated, or a chunk without choice raised [IndexError]. *)
Lemma relay_chunks_shape (stream : list chunk) :
  forall (full : string) (w : world),
  exists texts : list string,
    Forall (fun t => str_truthy t = true) texts /\
    snd (relay_chunks stream full w) = with_sent w (map send_text texts) /\
    (fst (relay_chunks stream full w) = Raise IndexError \/
     fst (relay_chunks stream full w) = Ok (full +:+ str_concat texts)).
Proof.
  induction stream as [|chunk stream IH]; intros full w.
  - exists []. cbn. rewrite with_sent_nil, append_empty_r. auto.
  - rewrite relay_chunks_cons.
    destruct (head (choices chunk)) as [content|].
    2:{ exists []. cbn. rewrite with_sent_nil. auto. }
    destruct content as [c|]; [|apply IH].
    destruct (str_truthy c) eqn:Hc; [|apply IH].
    destruct (IH (full +:+ c) (with_sent w [send_text c]))
      as (texts & Hall & Hsnd & Hfst).
    exists (c :: texts). split; [now constructor|].
    rewrite Hsnd, with_sent_cons. split; [reflexivity|].
    rewrite str_concat_cons, <- append_assoc. exact Hfst.
Qed.

(** X12. A chunk with no choice ends the relay with [IndexError]: the
    non-empty fragments before it have been sent, and the chunks after it
    are never read. *)
Theorem chunk_without_choice_stops_relay
  (before after : list chunk) (bad : chunk) (full : string) (w : world) :
  Forall (fun chunk => choices chunk <> []) before ->
  choices bad = [] ->
  relay_chunks (before ++ bad :: after) full w =
  (Raise IndexError,
   with_sent w (map send_text (List.filter str_truthy (fragments before)))).
Proof.
  intros Hbefore Hbad. revert full w.
  induction Hbefore as [|chunk before Hne _ IH]; intros full w.
  - cbn [app]. rewrite relay_chunks_cons, Hbad. cbn.
    now rewrite with_sent_nil.
  - cbn [app fragments]. rewrite relay_chunks_cons.
    destruct (choices chunk) as [|content rest]; [congruence|].
    cbn [head]. destruct content as [c|]; [|apply IH].
    destruct c as [|a c]; cbn [str_truthy List.filter]; [apply IH|].
    rewrite IH. cbn [map]. now rewrite with_sent_cons.
Qed.

Lemma chunk_without_choice_stops_relay_witness :
  relay_chunks Scenario.broken_stream "" Sample.world0 =
  (Raise IndexError, with_sent Sample.world0 [send_text "Hi"]).
Proof.
  apply (chunk_without_choice_stops_relay
           [Sample.delta (Some "Hi")] [Sample.delta (Some " there")]
           {| choices := [] |} "" Sample.world0).
  - repeat constructor. discriminate.
  - reflexivity.
Defined.

(** ** Steps 3 to 6 *)

Section AnswerFacts.

Context {completion_api : CompletionApi}.

Lemma answer_run (message_content : list part) (w : world) :
  answer message_content w =
  match completions_create (chat_history w ++ [user_entry message_content]) with
  | None => (Raise UpstreamError, with_user_turn w message_content)
  | Some stream =>
      match relay_chunks stream "" (with_user_turn w message_content) with
      | (Ok full, w2) =>
          (Ok (Streamed full),
           if str_truthy full then with_assistant_turn w2 full else w2)
      | (Raise e, w2) => (Raise e, w2)
      end
  end.
Proof.
  unfold answer, bind, history_append, request_stream. cbn [chat_history].
  fold (with_user_turn w message_content).
  destruct (completions_create _) as [stream|]; [|reflexivity].
  destruct (relay_chunks stream "" _) as [[full|e] w2]; [|reflexivity].
  destruct (str_truthy full); reflexivity.
Qed.

(** Steps 3 to 6 in one statement: the store is kept, one request is made
    with the old history and the new user entry, some non-empty texts are
    sent, and the history gets the user entry and, after a completed
    stream with text, the assistant entry. *)
Lemma answer_shape (message_content : list part) (w : world) :
  exists (texts : list string) (tail : list message),
    snd (answer message_content w) =
      {| uploaded_data_store := uploaded_data_store w;
         chat_history := chat_history w ++ user_entry message_content :: tail;
         sent := sent w ++ map send_text texts;
         requests := requests w ++ [chat_history w ++ [user_entry message_content]] |} /\
    Forall (fun t => str_truthy t = true) texts /\
    (fst (answer message_content w) = Raise UpstreamError /\ tail = [] /\ texts = [] \/
     fst (answer message_content w) = Raise IndexError /\ tail = [] \/
     fst (answer message_content w) = Ok (Streamed (str_concat texts)) /\
     tail = if str_truthy (str_concat texts)
            then [assistant_entry (str_concat texts)] else []).
Proof.
  rewrite answer_run.
  destruct (completions_create _) as [stream|].
  2:{ exists [], []. cbn. rewrite app_nil_r.
      split; [reflexivity|]. split; [constructor|]. left. auto. }
  destruct (relay_chunks_shape stream "" (with_user_turn w message_content))
    as (texts & Hall & Hsnd & Hfst).
  rewrite append_empty_l in Hfst.
  destruct (relay_chunks stream "" _) as [[full|e] w2]; cbn [fst snd] in *; subst w2.
  - destruct Hfst as [Hfst|Hfst]; [discriminate Hfst|]. injection Hfst as ->.
    exists texts. destruct (str_truthy (str_concat texts)) eqn:Hfull.
    + exists [assistant_entry (str_concat texts)].
      split.
      { unfold with_assistant_turn, with_sent, with_user_turn. cbn.
        now rewrite <- app_assoc. }
      split; [exact Hall|]. right. right. auto.
    + exists []. split; [reflexivity|].
      split; [exact Hall|]. right. right. auto.
  - destruct Hfst as [Hfst|Hfst]; [|discriminate Hfst]. injection Hfst as ->.
    exists texts, []. split; [reflexivity|].
    split; [exact Hall|]. right. left. auto.
Qed.

End AnswerFacts.

(** ** Step 2: the content of the user entry *)

Lemma startswith_nonempty (p s : string) :
  str_truthy p = true -> startswith p s = true -> str_truthy s = true.
Proof. destruct p, s; cbn; congruence. Qed.

Lemma build_with_image (user_message : json) (data : string) (w : world) :
  startswith "data:image/" data = true ->
  build_message_content user_message (Some data) w =
  (Ok [text_part (if truthy user_message then user_message
                  else JStr default_image_prompt);
       image_url_part data], w).
Proof.
  intros Himg. unfold build_message_content.
  rewrite (startswith_nonempty "data:image/" data eq_refl Himg), Himg.
  reflexivity.
Qed.

Lemma build_with_text_payload (t data : string) (w : world) :
  str_truthy data = true ->
  startswith "data:image/" data = false ->
  build_message_content (JStr t) (Some data) w =
  (Ok [text_part (JStr ((data +:+ user_prompt_separator) +:+ t))], w).
Proof.
  intros Hne Himg. unfold build_message_content. rewrite Hne, Himg. reflexivity.
Qed.

Lemma build_type_error (user_message : json) (data : string) (w : world) :
  str_truthy data = true ->
  startswith "data:image/" data = false ->
  (forall t, user_message <> JStr t) ->
  build_message_content user_message (Some data) w = (Raise TypeError, w).
Proof.
  intros Hne Himg Hstr. unfold build_message_content. rewrite Hne, Himg.
  destruct user_message; try reflexivity. now destruct (Hstr s).
Qed.

Lemma build_without_payload (user_message : json) (w : world) :
  build_message_content user_message None w =
  (Ok (if truthy user_message then [text_part user_message] else []), w).
Proof.
  unfold build_message_content. destruct (truthy user_message); reflexivity.
Qed.

Lemma build_message_content_outcome (user_message : json)
  (file_content_data : option string) (w : world) :
  (exists message_content,
     build_message_content user_message file_content_data w
     = (Ok message_content, w)) \/
  build_message_content user_message file_content_data w = (Raise TypeError, w).
Proof.
  unfold build_message_content.
  destruct file_content_data as [data|]; [destruct (str_truthy data)|].
  - destruct (startswith "data:image/" data); [left; eauto|].
    destruct user_message; (left; unfold bind, str_add, ret; cbn; eauto; fail)
                           || (now right).
  - destruct (truthy user_message); left; eauto.
  - destruct (truthy user_message); left; eauto.
Qed.

(** ** One turn, further *)

Section TurnFacts.

Context {json_library : JsonLibrary} {completion_api : CompletionApi}.

Lemma respond_answer (user_message : json) (file_content_data : option string)
  (w : world) :
  respond user_message file_content_data w =
  match build_message_content user_message file_content_data w with
  | (Ok [], w0) => (Ok Skipped, w0)
  | (Ok (p :: message_content), w0) => answer (p :: message_content) w0
  | (Raise e, w0) => (Raise e, w0)
  end.
Proof.
  unfold respond. unfold bind at 1.
  destruct (build_message_content user_message file_content_data w)
    as [[[|p message_content]|e] w0]; reflexivity.
Qed.

(** A turn ends in one of three ways: it raises before any request
    ([AttributeError] for JSON that is no object, [TypeError] for a text
    that cannot be joined to a document), it is skipped, or it goes on to
    steps 3 to 6; until then only the store entry of the session may have
    changed. *)
Lemma loop_body_shape (session_id raw_data : string) (w : world) :
  exists w0,
    (w0 = w \/ w0 = with_popped w session_id) /\
    ((exists e, loop_body session_id raw_data w = (Raise e, w0) /\
                (e = AttributeError \/ e = TypeError)) \/
     loop_body session_id raw_data w = (Ok Skipped, w0) \/
     (exists message_content,
        loop_body session_id raw_data w = answer message_content w0)).
Proof.
  assert (forall um fcd w0,
    (exists e, respond um fcd w0 = (Raise e, w0) /\
               (e = AttributeError \/ e = TypeError)) \/
    respond um fcd w0 = (Ok Skipped, w0) \/
    (exists message_content, respond um fcd w0 = answer message_content w0))
    as Hrespond.
  { intros um fcd w0. rewrite respond_answer.
    destruct (build_message_content_outcome um fcd w0) as [[mc ->]| ->].
    - destruct mc as [|p mc]; [now right; left | right; right; eauto].
    - left. eauto. }
  destruct (json_loads raw_data) as [v|] eqn:Hj.
  - destruct v;
      try (exists w; split; [now left|]; left; exists AttributeError;
           rewrite (loop_body_not_object _ _ _ w Hj) by discriminate; now auto).
    exists (with_popped w session_id). split; [now right|].
    rewrite (loop_body_object _ _ _ w Hj). apply Hrespond.
  - exists w. split; [now left|].
    rewrite (loop_body_not_json _ _ w Hj). apply Hrespond.
Qed.

(** The trace of a turn, whatever its outcome. *)
Lemma turn_shape (session_id raw_data : string) (w : world) :
  let r := fst (loop_body session_id raw_data w) in
  let w' := snd (loop_body session_id raw_data w) in
  exists (texts : list string) (tail : list message) (reqs : list (list message)),
    (uploaded_data_store w' = uploaded_data_store w \/
     uploaded_data_store w' = delete session_id (uploaded_data_store w)) /\
    chat_history w' = chat_history w ++ tail /\
    sent w' = sent w ++ map send_text texts /\
    requests w' = requests w ++ reqs /\
    Forall (fun t => str_truthy t = true) texts /\
    ((tail = [] /\ texts = [] /\ reqs = [] /\
      (r = Raise AttributeError \/ r = Raise TypeError \/ r = Ok Skipped)) \/
     (exists message_content tail',
        tail = user_entry message_content :: tail' /\
        reqs = [chat_history w ++ [user_entry message_content]] /\
        (r = Raise UpstreamError /\ tail' = [] /\ texts = [] \/
         r = Raise IndexError /\ tail' = [] \/
         r = Ok (Streamed (str_concat texts)) /\
         tail' = if str_truthy (str_concat texts)
                 then [assistant_entry (str_concat texts)] else []))).
Proof.
  cbv zeta.
  destruct (loop_body_shape session_id raw_data w) as (w0 & Hw0 & Hcases).
  assert (uploaded_data_store w0 = uploaded_data_store w \/
          uploaded_data_store w0 = delete session_id (uploaded_data_store w))
    as Hstore by (destruct Hw0 as [->| ->]; auto).
  assert (chat_history w0 = chat_history w /\ sent w0 = sent w /\
          requests w0 = requests w) as (Hh & Hs & Hr)
    by (destruct Hw0 as [->| ->]; auto).
  destruct Hcases as [(e & -> & He)|[-> |(mc & ->)]]; cbn [fst snd].
  - exists [], [], []. rewrite Hh, Hs, Hr, !app_nil_r.
    split; [exact Hstore|]. do 3 (split; [reflexivity|]).
    split; [constructor|]. left. do 3 (split; [reflexivity|]).
    destruct He as [->| ->]; auto.
  - exists [], [], []. rewrite Hh, Hs, Hr, !app_nil_r.
    split; [exact Hstore|]. do 3 (split; [reflexivity|]).
    split; [constructor|]. left. do 3 (split; [reflexivity|]). auto.
  - destruct (answer_shape mc w0) as (texts & tail & Hsnd & Hall & Hfst).
    exists texts, (user_entry mc :: tail), [chat_history w ++ [user_entry mc]].
    rewrite Hsnd. cbn [uploaded_data_store chat_history sent requests].
    rewrite Hh, Hs, Hr.
    split; [exact Hstore|]. do 3 (split; [reflexivity|]).
    split; [exact Hall|]. right. exists mc, tail.
    do 2 (split; [reflexivity|]). exact Hfst.
Qed.

(** X13. Whatever a turn does, it asks the upstream at most once, and
    what it sends as [messages] is the whole history from before the turn
    followed by the new user entry; that user entry is then in the
    history. *)
Theorem turn_requests_at_most_once (session_id raw_data : string) (w : world) :
  let w' := snd (loop_body session_id raw_data w) in
  requests w' = requests w \/
  exists message_content tail,
    requests w' = requests w ++ [chat_history w ++ [user_entry message_content]] /\
    chat_history w' = chat_history w ++ user_entry message_content :: tail.
Proof.
  destruct (turn_shape session_id raw_data w)
    as (texts & tail & reqs & _ & Hh & _ & Hr & _ & Hcases). cbv zeta.
  destruct Hcases as [(_ & _ & -> & _)|(mc & tail' & -> & -> & _)].
  - left. now rewrite Hr, app_nil_r.
  - right. eauto.
Qed.

(** X14. In a completed turn the frames sent are non-empty texts that,
    joined, are exactly the accumulated response: the client has seen what
    the history will hold. *)
Theorem turn_frames_join_to_response
  (session_id raw_data full : string) (w : world) :
  fst (loop_body session_id raw_data w) = Ok (Streamed full) ->
  exists texts : list string,
    sent (snd (loop_body session_id raw_data w)) = sent w ++ map send_text texts /\
    str_concat texts = full /\
    Forall (fun t => t <> "") texts.
Proof.
  intros Hdone.
  destruct (turn_shape session_id raw_data w)
    as (texts & tail & reqs & _ & _ & Hs & _ & Hall & Hcases).
  cbv zeta in Hcases. rewrite Hdone in Hcases.
  exists texts. split; [exact Hs|]. split.
  - destruct Hcases as [(_ & _ & _ & [H|[H|H]])
                       |(mc & tail' & _ & _ & [(H & _)|[(H & _)|(H & _)]])];
      try discriminate H.
    now injection H.
  - eapply Forall_impl; [exact Hall|]. intros t Ht. now apply str_truthy_true.
Qed.

(** X15. A turn of one session never changes what is pending for another
    session, whatever the turn does. *)
Theorem turn_other_sessions_untouched
  (session_id other raw_data : string) (w : world) :
  other <> session_id ->
  uploaded_data_store (snd (loop_body session_id raw_data w)) !! other
  = uploaded_data_store w !! other.
Proof.
  intros Hne.
  destruct (turn_shape session_id raw_data w)
    as (texts & tail & reqs & Hstore & _). cbv zeta in Hstore.
  destruct Hstore as [-> | ->]; [reflexivity|].
  now apply lookup_delete_ne.
Qed.

End TurnFacts.

Lemma turn_frames_join_to_response_witness :
  exists texts : list string,
    sent (snd (loop_body (json_library := Sample.three_texts)
                 (completion_api := Sample.answers_hi)
                 "s1" (Sample.text_object "hello") Sample.world0))
      = sent Sample.world0 ++ map send_text texts /\
    str_concat texts = "Hi there" /\
    Forall (fun t => t <> "") texts.
Proof.
  apply (turn_frames_join_to_response (json_library := Sample.three_texts)
           (completion_api := Sample.answers_hi)
           "s1" (Sample.text_object "hello") "Hi there" Sample.world0).
  reflexivity.
Defined.

Lemma turn_other_sessions_untouched_witness :
  uploaded_data_store
    (snd (loop_body (json_library := Sample.three_texts)
            (completion_api := Sample.answers_hi)
            "s1" (Sample.text_object "hello") Scenario.world_pdf_pending)) !! "s2"
  = uploaded_data_store Scenario.world_pdf_pending !! "s2".
Proof.
  apply (turn_other_sessions_untouched (json_library := Sample.three_texts)
           (completion_api := Sample.answers_hi)
           "s1" "s2" (Sample.text_object "hello") Scenario.world_pdf_pending).
  discriminate.
Defined.

(** ** What the upstream is sent *)

Section ContentFacts.

Context {json_library : JsonLibrary} {completion_api : CompletionApi}.

Lemma answer_trace (message_content : list part) (w : world) :
  let w' := snd (answer message_content w) in
  requests w' = requests w ++ [chat_history w ++ [user_entry message_content]] /\
  (exists tail,
     chat_history w' = chat_history w ++ user_entry message_content :: tail) /\
  uploaded_data_store w' = uploaded_data_store w.
Proof.
  destruct (answer_shape message_content w) as (texts & tail & Hsnd & _).
  cbv zeta. rewrite Hsnd. cbn. eauto.
Qed.

Lemma loop_body_object_text (session_id raw_data : string)
  (items : list (string * json)) (w : world) :
  json_loads raw_data = Some (JObj items) ->
  loop_body session_id raw_data w =
  respond (text_of items) (uploaded_data_store w !! session_id)
    (with_popped w session_id).
Proof. intros Hj. now rewrite (loop_body_object _ _ _ w Hj). Qed.

(** X16. A turn that finds an image pending sends the upstream a user
    entry of two parts: the user's text, or the default instruction when
    that text is empty or missing, and the pending data URI as it was
    stored. The entry is consumed. *)
Theorem image_turn_content (session_id raw_data payload : string)
  (items : list (string * json)) (w : world) :
  json_loads raw_data = Some (JObj items) ->
  uploaded_data_store w !! session_id = Some payload ->
  startswith "data:image/" payload = true ->
  let message_content :=
    [text_part (if truthy (text_of items) then text_of items
                else JStr "Analyze this image and respond to my prompt.");
     image_url_part payload] in
  let w' := snd (loop_body session_id raw_data w) in
  requests w' = requests w ++ [chat_history w ++ [user_entry message_content]] /\
  (exists tail,
     chat_history w' = chat_history w ++ user_entry message_content :: tail) /\
  uploaded_data_store w' !! session_id = None.
Proof.
  intros Hj Hpending Himg mc w'. subst w'.
  assert (loop_body session_id raw_data w = answer mc (with_popped w session_id))
    as Hrun.
  { rewrite (loop_body_object_text _ _ _ w Hj), Hpending, respond_answer.
    now rewrite (build_with_image _ _ _ Himg). }
  rewrite Hrun.
  destruct (answer_trace mc (with_popped w session_id)) as (Hr & Hh & Hs).
  cbv zeta in Hr, Hh, Hs. rewrite Hr, Hs.
  cbn [with_popped requests chat_history uploaded_data_store] in *.
  repeat split; auto. apply lookup_delete_eq.
Qed.

(** X17. A turn that finds a document pending sends the upstream a user
    entry of one text part: the stored payload, the separator
    ["\n\nUser prompt: "], and the user's text. The entry is consumed. *)
Theorem document_turn_content (session_id raw_data payload t : string)
  (items : list (string * json)) (w : world) :
  json_loads raw_data = Some (JObj items) ->
  text_of items = JStr t ->
  uploaded_data_store w !! session_id = Some payload ->
  str_truthy payload = true ->
  startswith "data:image/" payload = false ->
  let message_content :=
    [text_part (JStr ((payload +:+ nl +:+ nl +:+ "User prompt: ") +:+ t))] in
  let w' := snd (loop_body session_id raw_data w) in
  requests w' = requests w ++ [chat_history w ++ [user_entry message_content]] /\
  (exists tail,
     chat_history w' = chat_history w ++ user_entry message_content :: tail) /\
  uploaded_data_store w' !! session_id = None.
Proof.
  intros Hj Htext Hpending Hne Hdoc mc w'. subst w'.
  assert (loop_body session_id raw_data w = answer mc (with_popped w session_id))
    as Hrun.
  { rewrite (loop_body_object_text _ _ _ w Hj), Hpending, Htext, respond_answer.
    now rewrite (build_with_text_payload _ _ _ Hne Hdoc). }
  rewrite Hrun.
  destruct (answer_trace mc (with_popped w session_id)) as (Hr & Hh & Hs).
  cbv zeta in Hr, Hh, Hs. rewrite Hr, Hs.
  cbn [with_popped requests chat_history uploaded_data_store] in *.
  repeat split; auto. apply lookup_delete_eq.
Qed.

(** X18. When a document is pending and the [text] of the message is not
    a string (a number, [null], a list), joining them raises [TypeError]:
    the turn ends there, nothing is asked upstream and nothing is added to
    the history, and the pending document is gone with it. *)
Theorem document_turn_needs_string_text (session_id raw_data payload : string)
  (items : list (string * json)) (w : world) :
  json_loads raw_data = Some (JObj items) ->
  (forall t, text_of items <> JStr t) ->
  uploaded_data_store w !! session_id = Some payload ->
  str_truthy payload = true ->
  startswith "data:image/" payload = false ->
  loop_body session_id raw_data w = (Raise TypeError, with_popped w session_id) /\
  uploaded_data_store (snd (loop_body session_id raw_data w)) !! session_id = None.
Proof.
  intros Hj Htext Hpending Hne Hdoc.
  rewrite (loop_body_object_text _ _ _ w Hj), Hpending, respond_answer.
  rewrite (build_type_error _ _ _ Hne Hdoc Htext). cbv beta iota.
  split; [reflexivity|]. cbn. apply lookup_delete_eq.
Qed.

(** X19. A text that is not JSON and not empty is sent upstream as it
    is, as a single text part, and the store is not touched: a payload
    pending for the session is neither attached nor consumed. *)
Theorem plain_text_turn_content (session_id raw_data : string) (w : world) :
  json_loads raw_data = None ->
  raw_data <> "" ->
  let message_content := [text_part (JStr raw_data)] in
  let w' := snd (loop_body session_id raw_data w) in
  requests w' = requests w ++ [chat_history w ++ [user_entry message_content]] /\
  (exists tail,
     chat_history w' = chat_history w ++ user_entry message_content :: tail) /\
  uploaded_data_store w' = uploaded_data_store w.
Proof.
  intros Hj Hraw mc w'. subst w'.
  assert (loop_body session_id raw_data w = answer mc w) as Hrun.
  { rewrite (loop_body_not_json _ _ w Hj), respond_answer, build_without_payload.
    cbn [truthy]. apply str_truthy_true in Hraw. now rewrite Hraw. }
  rewrite Hrun. apply (answer_trace mc w).
Qed.

(** X20. With nothing pending, a message whose [text] is not empty is
    sent upstream as a single text part holding that text. *)
Theorem text_only_turn_content (session_id raw_data : string)
  (items : list (string * json)) (w : world) :
  json_loads raw_data = Some (JObj items) ->
  truthy (text_of items) = true ->
  uploaded_data_store w !! session_id = None ->
  let message_content := [text_part (text_of items)] in
  let w' := snd (loop_body session_id raw_data w) in
  requests w' = requests w ++ [chat_history w ++ [user_entry message_content]] /\
  (exists tail,
     chat_history w' = chat_history w ++ user_entry message_content :: tail) /\
  uploaded_data_store w' = uploaded_data_store w.
Proof.
  intros Hj Htext Habsent mc w'. subst w'.
  assert (loop_body session_id raw_data w = answer mc (with_popped w session_id))
    as Hrun.
  { rewrite (loop_body_object_text _ _ _ w Hj), Habsent, respond_answer.
    now rewrite build_without_payload, Htext. }
  rewrite Hrun.
  destruct (answer_trace mc (with_popped w session_id)) as (Hr & Hh & Hs).
  cbv zeta in Hr, Hh, Hs. rewrite Hr, Hs.
  cbn [with_popped requests chat_history uploaded_data_store] in *.
  repeat split; auto. now apply delete_id.
Qed.

(** Step 1 touches nothing but the store. *)
Lemma read_payload_keeps (session_id raw_data : string) (w : world) :
  let w1 := snd (read_payload session_id raw_data w) in
  chat_history w1 = chat_history w /\ sent w1 = sent w /\ requests w1 = requests w.
Proof.
  destruct (json_loads raw_data) as [v|] eqn:Hj.
  - destruct v;
      try (rewrite (read_payload_not_object _ _ _ w Hj) by discriminate; now cbn).
    rewrite (read_payload_object _ _ _ w Hj). now cbn.
  - rewrite (read_payload_not_json _ _ w Hj). now cbn.
Qed.

(** Step 2 does not read the world. *)
Lemma build_message_content_anywhere (user_message : json)
  (file_content_data : option string) (w1 w2 : world) :
  fst (build_message_content user_message file_content_data w1)
  = fst (build_message_content user_message file_content_data w2).
Proof.
  unfold build_message_content.
  destruct file_content_data as [data|]; [destruct (str_truthy data)|].
  - destruct (startswith "data:image/" data); [reflexivity|].
    unfold bind, str_add. destruct user_message; reflexivity.
  - destruct (truthy user_message); reflexivity.
  - destruct (truthy user_message); reflexivity.
Qed.

(** X21. Whatever the turn (a JSON object or plain text, with or without
    a pending payload): when it has built a content that is not empty and
    the upstream call for it raises, the turn ends with that error after
    the user entry has been appended. The entry stays in the history, the
    request is on record, and the turn has sent nothing to the client. *)
Theorem upstream_failure_keeps_user_entry
  (session_id raw_data : string) (user_message : json)
  (file_content_data : option string) (message_content : list part) (w : world) :
  fst (read_payload session_id raw_data w) = Ok (user_message, file_content_data) ->
  fst (build_message_content user_message file_content_data w) = Ok message_content ->
  message_content <> [] ->
  completions_create (chat_history w ++ [user_entry message_content]) = None ->
  let w' := snd (loop_body session_id raw_data w) in
  fst (loop_body session_id raw_data w) = Raise UpstreamError /\
  chat_history w' = chat_history w ++ [user_entry message_content] /\
  requests w' = requests w ++ [chat_history w ++ [user_entry message_content]] /\
  sent w' = sent w.
Proof.
  intros Hread Hbuild Hne Hdown w'. subst w'.
  pose proof (read_payload_keeps session_id raw_data w) as (Hh & Hs & Hr).
  cbv zeta in Hh, Hs, Hr.
  unfold loop_body, bind.
  destruct (read_payload session_id raw_data w) as [r w1];
    cbn [fst snd] in *. subst r. cbn [fst snd].
  rewrite respond_answer.
  pose proof (build_message_content_pure user_message file_content_data w1) as Hpure.
  rewrite (build_message_content_anywhere _ _ w w1) in Hbuild.
  destruct (build_message_content user_message file_content_data w1)
    as [r w0]; cbn [fst snd] in *. subst r w0.
  destruct message_content as [|p message_content]; [congruence|].
  rewrite answer_run, Hh, Hdown. cbn. now rewrite Hh, Hs, Hr.
Qed.

End ContentFacts.

(** *** Worked turns, further *)

Lemma image_turn_content_witness :
  let message_content :=
    [text_part (if truthy (text_of [("text", JStr "")]) then text_of [("text", JStr "")]
                else JStr "Analyze this image and respond to my prompt.");
     image_url_part "data:image/png;base64,iVBORw0KGgo="] in
  let w' := snd (loop_body (json_library := Sample.three_texts)
                   (completion_api := Sample.answers_hi)
                   "s1" (Sample.text_object "") Sample.world_pending) in
  requests w' =
    requests Sample.world_pending
      ++ [chat_history Sample.world_pending ++ [user_entry message_content]] /\
  (exists tail,
     chat_history w' =
       chat_history Sample.world_pending ++ user_entry message_content :: tail) /\
  uploaded_data_store w' !! "s1" = None.
Proof.
  apply (image_turn_content (json_library := Sample.three_texts)
           (completion_api := Sample.answers_hi)
           "s1" (Sample.text_object "") "data:image/png;base64,iVBORw0KGgo="
           [("text", JStr "")] Sample.world_pending).
  - reflexivity.
  - reflexivity.
  - reflexivity.
Defined.

Example image_turn_history :
  chat_history
    (snd (loop_body (json_library := Sample.three_texts)
            (completion_api := Sample.answers_hi)
            "s1" (Sample.text_object "") Sample.world_pending))
  = [system_directive;
     user_entry [text_part (JStr "Analyze this image and respond to my prompt.");
                 image_url_part "data:image/png;base64,iVBORw0KGgo="];
     assistant_entry "Hi there"].
Proof. reflexivity. Qed.

Lemma document_turn_content_witness :
  let message_content :=
    [text_part (JStr ((Scenario.pdf_payload +:+ nl +:+ nl +:+ "User prompt: ")
                      +:+ "hello"))] in
  let w' := snd (loop_body (json_library := Sample.three_texts)
                   (completion_api := Sample.answers_hi)
                   "s1" (Sample.text_object "hello") Scenario.world_pdf_pending) in
  requests w' =
    requests Scenario.world_pdf_pending
      ++ [chat_history Scenario.world_pdf_pending ++ [user_entry message_content]] /\
  (exists tail,
     chat_history w' =
       chat_history Scenario.world_pdf_pending ++ user_entry message_content :: tail) /\
  uploaded_data_store w' !! "s1" = None.
Proof.
  apply (document_turn_content (json_library := Sample.three_texts)
           (completion_api := Sample.answers_hi)
           "s1" (Sample.text_object "hello") Scenario.pdf_payload "hello"
           [("text", JStr "hello")] Scenario.world_pdf_pending).
  - reflexivity.
  - reflexivity.
  - reflexivity.
  - reflexivity.
  - reflexivity.
Defined.

Lemma document_turn_needs_string_text_witness :
  loop_body (json_library := Scenario.json_table)
    (completion_api := Sample.answers_hi)
    "s1" Scenario.null_text_object Scenario.world_pdf_pending
    = (Raise TypeError, with_popped Scenario.world_pdf_pending "s1") /\
  uploaded_data_store
    (snd (loop_body (json_library := Scenario.json_table)
            (completion_api := Sample.answers_hi)
            "s1" Scenario.null_text_object Scenario.world_pdf_pending)) !! "s1"
    = None.
Proof.
  apply (document_turn_needs_string_text (json_library := Scenario.json_table)
           (completion_api := Sample.answers_hi)
           "s1" Scenario.null_text_object Scenario.pdf_payload
           [("text", JNull)] Scenario.world_pdf_pending).
  - reflexivity.
  - discriminate.
  - reflexivity.
  - reflexivity.
  - reflexivity.
Defined.

Lemma plain_text_turn_content_witness :
  let message_content := [text_part (JStr "hello")] in
  let w' := snd (loop_body (json_library := Sample.three_texts)
                   (completion_api := Sample.answers_hi)
                   "s1" "hello" Sample.world_pending) in
  requests w' =
    requests Sample.world_pending
      ++ [chat_history Sample.world_pending ++ [user_entry message_content]] /\
  (exists tail,
     chat_history w' =
       chat_history Sample.world_pending ++ user_entry message_content :: tail) /\
  uploaded_data_store w' = uploaded_data_store Sample.world_pending.
Proof.
  apply (plain_text_turn_content (json_library := Sample.three_texts)
           (completion_api := Sample.answers_hi)
           "s1" "hello" Sample.world_pending).
  - reflexivity.
  - discriminate.
Defined.

Lemma text_only_turn_content_witness :
  let message_content := [text_part (text_of [("text", JStr "hello")])] in
  let w' := snd (loop_body (json_library := Sample.three_texts)
                   (completion_api := Sample.answers_hi)
                   "s1" (Sample.text_object "hello") Sample.world0) in
  requests w' =
    requests Sample.world0
      ++ [chat_history Sample.world0 ++ [user_entry message_content]] /\
  (exists tail,
     chat_history w' =
       chat_history Sample.world0 ++ user_entry message_content :: tail) /\
  uploaded_data_store w' = uploaded_data_store Sample.world0.
Proof.
  apply (text_only_turn_content (json_library := Sample.three_texts)
           (completion_api := Sample.answers_hi)
           "s1" (Sample.text_object "hello") [("text", JStr "hello")] Sample.world0).
  - reflexivity.
  - reflexivity.
  - reflexivity.
Defined.

Lemma upstream_failure_keeps_user_entry_witness :
  let message_content :=
    [text_part (JStr "hello");
     image_url_part "data:image/png;base64,iVBORw0KGgo="] in
  let w' := snd (loop_body (json_library := Sample.three_texts)
                   (completion_api := Scenario.upstream_down)
                   "s1" (Sample.text_object "hello") Sample.world_pending) in
  fst (loop_body (json_library := Sample.three_texts)
         (completion_api := Scenario.upstream_down)
         "s1" (Sample.text_object "hello") Sample.world_pending)
    = Raise UpstreamError /\
  chat_history w' =
    chat_history Sample.world_pending ++ [user_entry message_content] /\
  requests w' =
    requests Sample.world_pending
      ++ [chat_history Sample.world_pending ++ [user_entry message_content]] /\
  sent w' = sent Sample.world_pending.
Proof.
  apply (upstream_failure_keeps_user_entry (json_library := Sample.three_texts)
           (completion_api := Scenario.upstream_down)
           "s1" (Sample.text_object "hello") (JStr "hello")
           (Some "data:image/png;base64,iVBORw0KGgo=")
           [text_part (JStr "hello");
            image_url_part "data:image/png;base64,iVBORw0KGgo="]
           Sample.world_pending).
  - reflexivity.
  - reflexivity.
  - discriminate.
  - reflexivity.
Defined.

(** ** The loop and the endpoint, further *)

Section EndpointFacts.

Context {json_library : JsonLibrary} {completion_api : CompletionApi}.


Lemma loop_body_growth (session_id raw_data : string) (w : world) :
  let w' := snd (loop_body session_id raw_data w) in
  length (chat_history w') <= length (chat_history w) + 2 /\
  length (requests w') <= length (requests w) + 1.
Proof.
  destruct (turn_shape session_id raw_data w)
    as (texts & tail & reqs & _ & Hh & _ & Hr & _ & Hcases). cbv zeta in *.
  rewrite Hh, Hr, !length_app.
  destruct Hcases as [(-> & _ & -> & _)|(mc & tail' & -> & -> & Htail)].
  - cbn. lia.
  - cbn [length].
    assert (length tail' <= 1); [|lia].
    destruct Htail as [(_ & -> & _)|[(_ & ->)|(_ & ->)]]; cbn; try lia.
    destruct (str_truthy (str_concat texts)); cbn; lia.
Qed.




(** X24. Over a whole connection the history grows by at most two entries
    for each message received, and the upstream is asked at most once for
    each message. *)
Theorem relay_loop_growth (session_id : string) (incoming : list string) (w : world) :
  let w' := snd (relay_loop session_id incoming w) in
  length (chat_history w') <= length (chat_history w) + 2 * length incoming /\
  length (requests w') <= length (requests w) + length incoming.
Proof.
  revert w. induction incoming as [|raw_data incoming IH]; intros w.
  - cbn. lia.
  - cbn [relay_loop]. unfold bind. cbv zeta.
    pose proof (loop_body_growth session_id raw_data w) as [Hh Hr].
    cbv zeta in Hh, Hr.
    destruct (loop_body session_id raw_data w) as [[r|e] w1]; cbn [snd] in *.
    + destruct (IH w1) as [Hh' Hr']. cbn [length]. lia.
    + cbn [length]. lia.
Qed.



End EndpointFacts.

(** *** Worked connections *)


Lemma endpoint_history_starts_with_directive_witness :
  head (chat_history
          (snd (websocket_endpoint (json_library := Sample.three_texts)
                  (completion_api := Sample.answers_hi)
                  (Some "s1") [Sample.text_object "hello"; "hello"]
                  Sample.world_pending)))
  = Some system_directive.
Proof.
  apply (endpoint_history_starts_with_directive (json_library := Sample.three_texts)
           (completion_api := Sample.answers_hi)
           "s1" [Sample.text_object "hello"; "hello"] Sample.world_pending).
  reflexivity.
Defined.

(** A connection of two messages that the client then leaves. *)
Example two_message_connection :
  websocket_endpoint (json_library := Sample.three_texts)
    (completion_api := Sample.answers_hi)
    (Some "s1") [Sample.text_object "hello"; Sample.text_object ""]
    Sample.world_pending
  = (Ok tt,
     {| uploaded_data_store := ∅;
        chat_history :=
          [system_directive;
           user_entry [text_part (JStr "hello");
                       image_url_part "data:image/png;base64,iVBORw0KGgo="];
           assistant_entry "Hi there"];
        sent := [send_text "Hi"; send_text " there"];
        requests :=
          [[system_directive;
            user_entry [text_part (JStr "hello");
                        image_url_part "data:image/png;base64,iVBORw0KGgo="]]] |}).
Proof. vm_compute. reflexivity. Qed.

(** A connection without session id. *)
Example connection_without_session_id :
  websocket_endpoint (json_library := Sample.three_texts)
    (completion_api := Sample.answers_hi) None ["hello"] Sample.world0
  = (Ok tt, with_sent Sample.world0 [close_frame (Some 1008)]).
Proof. reflexivity. Qed.

(** ** From the upload to the upstream *)

Section UploadThenTurn.

Context {pdf_library : PdfLibrary}
        {json_library : JsonLibrary} {completion_api : CompletionApi}.

(** A turn on a JSON object, with a payload pending. *)
Lemma pending_turn_run (session_id raw_data payload : string)
  (items : list (string * json)) (message_content : list part) (w : world) :
  json_loads raw_data = Some (JObj items) ->
  uploaded_data_store w !! session_id = Some payload ->
  message_content <> [] ->
  build_message_content (text_of items) (Some payload) (with_popped w session_id)
    = (Ok message_content, with_popped w session_id) ->
  let w' := snd (loop_body session_id raw_data w) in
  requests w' = requests w ++ [chat_history w ++ [user_entry message_content]] /\
  (exists tail,
     chat_history w' = chat_history w ++ user_entry message_content :: tail) /\
  uploaded_data_store w' !! session_id = None.
Proof.
  intros Hj Hpending Hne Hbuild w'. subst w'.
  assert (loop_body session_id raw_data w
          = answer message_content (with_popped w session_id)) as Hrun.
  { rewrite (loop_body_object_text _ _ _ w Hj), Hpending, respond_answer, Hbuild.
    destruct message_content; [congruence | reflexivity]. }
  rewrite Hrun.
  destruct (answer_trace message_content (with_popped w session_id))
    as (Hr & Hh & Hs).
  cbv zeta in Hr, Hh, Hs. rewrite Hr, Hs.
  cbn [with_popped requests chat_history uploaded_data_store] in *.
  repeat split; auto. apply lookup_delete_eq.
Qed.

(** X27. An image that is uploaded and then followed by a message of the
    same session reaches the upstream whole: the request of that turn ends
    with a user entry whose image part is the data URI of exactly the
    uploaded bytes, with the user's text (or the default instruction) as
    its text part; and the entry is consumed. *)
Theorem uploaded_image_reaches_upstream
  (file : upload_part) (session_id mime raw_data : string)
  (items : list (string * json)) (w : world) :
  content_type file = Some mime ->
  startswith "image/" mime = true ->
  json_loads raw_data = Some (JObj items) ->
  let w1 := snd (upload_file file session_id w) in
  let w2 := snd (loop_body session_id raw_data w1) in
  let message_content :=
    [text_part (if truthy (text_of items) then text_of items
                else JStr "Analyze this image and respond to my prompt.");
     image_url_part (image_to_base64 (file_bytes file) mime)] in
  requests w2 = requests w ++ [chat_history w ++ [user_entry message_content]] /\
  uploaded_data_store w2 !! session_id = None.
Proof.
  intros Hct Himg Hj w1 w2 mc. subst w2 w1.
  rewrite (upload_image_run file session_id mime w Hct Himg). cbn [snd].
  match goal with |- context [loop_body session_id raw_data ?x] => set (w1 := x) end.
  destruct (pending_turn_run session_id raw_data
              (image_to_base64 (file_bytes file) mime) items mc w1 Hj)
    as (Hr & _ & Hs).
  - apply with_stored_lookup.
  - discriminate.
  - apply build_with_image. now apply data_uri_is_image.
  - cbv zeta in Hr, Hs. now rewrite Hr, Hs.
Qed.

(** X28. A PDF that is uploaded and then followed by a message of the
    same session with a string as text reaches the upstream as one text
    part: the preamble, the capped extracted text, the trailer, the
    separator and the user's text; and the entry is consumed. *)
Theorem uploaded_pdf_reaches_upstream
  (file : upload_part) (session_id raw_data t : string)
  (items : list (string * json)) (w : world) :
  content_type file = Some "application/pdf" ->
  json_loads raw_data = Some (JObj items) ->
  text_of items = JStr t ->
  let w1 := snd (upload_file file session_id w) in
  let w2 := snd (loop_body session_id raw_data w1) in
  let message_content :=
    [text_part
       (JStr (((pdf_preamble +:+ pdf_to_text (file_bytes file) +:+ pdf_trailer)
               +:+ nl +:+ nl +:+ "User prompt: ") +:+ t))] in
  requests w2 = requests w ++ [chat_history w ++ [user_entry message_content]] /\
  uploaded_data_store w2 !! session_id = None.
Proof.
  intros Hct Hj Htext w1 w2 mc. subst w2 w1.
  rewrite (upload_pdf_run file session_id w Hct). cbn [snd].
  match goal with |- context [loop_body session_id raw_data ?x] => set (w1 := x) end.
  destruct (pdf_payload_is_text (pdf_to_text (file_bytes file))) as [Hdoc Hne].
  destruct (pending_turn_run session_id raw_data
              (pdf_preamble +:+ pdf_to_text (file_bytes file) +:+ pdf_trailer)
              items mc w1 Hj)
    as (Hr & _ & Hs).
  - apply with_stored_lookup.
  - discriminate.
  - rewrite Htext. now apply build_with_text_payload.
  - cbv zeta in Hr, Hs. now rewrite Hr, Hs.
Qed.

End UploadThenTurn.

Lemma uploaded_image_reaches_upstream_witness :
  let w1 := snd (upload_file (pdf_library := Scenario.two_page_pdf)
                   Sample.png_upload "s1" Sample.world0) in
  let w2 := snd (loop_body (json_library := Sample.three_texts)
                   (completion_api := Sample.answers_hi)
                   "s1" (Sample.text_object "hello") w1) in
  let message_content :=
    [text_part (if truthy (text_of [("text", JStr "hello")])
                then text_of [("text", JStr "hello")]
                else JStr "Analyze this image and respond to my prompt.");
     image_url_part (image_to_base64 (file_bytes Sample.png_upload) "image/png")] in
  requests w2 =
    requests Sample.world0
      ++ [chat_history Sample.world0 ++ [user_entry message_content]] /\
  uploaded_data_store w2 !! "s1" = None.
Proof.
  apply (uploaded_image_reaches_upstream (pdf_library := Scenario.two_page_pdf)
           (json_library := Sample.three_texts)
           (completion_api := Sample.answers_hi)
           Sample.png_upload "s1" "image/png" (Sample.text_object "hello")
           [("text", JStr "hello")] Sample.world0).
  - reflexivity.
  - reflexivity.
  - reflexivity.
Defined.

Lemma uploaded_pdf_reaches_upstream_witness :
  let w1 := snd (upload_file (pdf_library := Scenario.two_page_pdf)
                   Sample.pdf_upload "s1" Sample.world0) in
  let w2 := snd (loop_body (json_library := Sample.three_texts)
                   (completion_api := Sample.answers_hi)
                   "s1" (Sample.text_object "hello") w1) in
  let message_content :=
    [text_part
       (JStr (((pdf_preamble
                +:+ pdf_to_text (pdf_library := Scenario.two_page_pdf)
                      (file_bytes Sample.pdf_upload)
                +:+ pdf_trailer)
               +:+ nl +:+ nl +:+ "User prompt: ") +:+ "hello"))] in
  requests w2 =
    requests Sample.world0
      ++ [chat_history Sample.world0 ++ [user_entry message_content]] /\
  uploaded_data_store w2 !! "s1" = None.
Proof.
  apply (uploaded_pdf_reaches_upstream (pdf_library := Scenario.two_page_pdf)
           (json_library := Sample.three_texts)
           (completion_api := Sample.answers_hi)
           Sample.pdf_upload "s1" (Sample.text_object "hello") "hello"
           [("text", JStr "hello")] Sample.world0).
  - reflexivity.
  - reflexivity.
  - reflexivity.
Defined.
